(** * chefrulo_recipe: recipe costing and the CSV ingredient importer

    A shallow embedding of [models/recipe_ingredient.py],
    [models/recipe_recipe.py] and [wizard/ingredient_import.py].

    - Python [float] is IEEE binary64: Rocq's primitive [float].  Where
      the source puts the integer [0] in a float field or starts a sum
      with it, the model has the float [0].
    - Python exceptions are values of [exn]; a computation that may raise
      returns a [result].
    - The ORM tables are lists of records carrying their [id]; a [Many2one]
      field holds [option Z] (the referenced id, [None] for an empty field)
      and is resolved against its table when it is read.
    - Python dictionaries ([UOM_MAPPING], the rows of [csv.DictReader], the
      configuration parameters) are [gmap]s. *)

From Stdlib Require Import ZArith String Ascii List PrimFloat FloatOps SpecFloat.
From stdpp Require Import base option list gmap strings pretty sorting.

Local Open Scope string_scope.
Local Open Scope Z_scope.

(** * Python values, exceptions and built-ins *)

Module Py.

(** The exceptions the modelled code can meet. *)
Inductive exn : Type :=
| AttributeError (msg : string)
| ValueError (msg : string)
| ZeroDivisionError (msg : string)
| UserError (msg : string).

(** [str(e)] *)
Definition str_exn (e : exn) : string :=
  match e with
  | AttributeError m | ValueError m | ZeroDivisionError m | UserError m => m
  end.

Inductive result (A : Type) : Type :=
| Ok (a : A)
| Raise (e : exn).
Arguments Ok {A} a.
Arguments Raise {A} e.

#[global] Instance result_ret : MRet result := fun _ a => Ok a.
#[global] Instance result_bind : MBind result := fun _ _ f m =>
  match m with
  | Ok a => f a
  | Raise e => Raise e
  end.

(** ** Strings *)

(** [ord(c)] *)
Definition ord (c : ascii) : nat := nat_of_ascii c.

(** [str.isspace] on the ASCII range: TAB..CR, FS..US and the blank. *)
Definition isspace (c : ascii) : bool :=
  let n := ord c in
  ((9 <=? n)%nat && (n <=? 13)%nat) || ((28 <=? n)%nat && (n <=? 32)%nat).

Fixpoint lstrip (s : string) : string :=
  match s with
  | String c s' => if isspace c then lstrip s' else s
  | EmptyString => EmptyString
  end.

Definition rstrip (s : string) : string := String.rev (lstrip (String.rev s)).

(** [s.strip()] *)
Definition strip (s : string) : string := rstrip (lstrip s).

Definition lower_char (c : ascii) : ascii :=
  let n := ord c in
  if (65 <=? n)%nat && (n <=? 90)%nat then ascii_of_nat (n + 32) else c.

(** [s.lower()] (ASCII letters) *)
Fixpoint lower (s : string) : string :=
  match s with
  | String c s' => String (lower_char c) (lower s')
  | EmptyString => EmptyString
  end.

(** [s.replace(old, new)] for one-character [old] and [new]. *)
Fixpoint replace (old new : ascii) (s : string) : string :=
  match s with
  | String c s' =>
      String (if Ascii.eqb c old then new else c) (replace old new s')
  | EmptyString => EmptyString
  end.

(** [sep.join(lines)] *)
Fixpoint join (sep : string) (lines : list string) : string :=
  match lines with
  | [] => ""
  | [l] => l
  | l :: ls => l +:+ sep +:+ join sep ls
  end.

(** [bool(s)] *)
Definition bool_str (s : string) : bool :=
  match s with EmptyString => false | _ => true end.

(** [str(n)] for an integer *)
Definition str_int (n : Z) : string := pretty n.

(** The line feed. *)
Definition nl : string := String (ascii_of_nat 10) EmptyString.

(** ** Floats *)

Definition prec : Z := 53.
Definition emax : Z := 1024.

(** [bool(x)]: a float is falsy exactly when it compares equal to zero. *)
Definition bool_float (x : float) : bool := negb (PrimFloat.eqb x 0%float).

(** [float(n)] for an integer, rounded to nearest even. *)
Definition float_of_int (n : Z) : float :=
  SF2Prim (binary_normalize prec emax n 0 false).

(** [x / n] with [x] a float and [n] an integer. *)
Definition truediv (x : float) (n : Z) : result float :=
  if n =? 0 then Raise (ZeroDivisionError "float division by zero")
  else Ok (PrimFloat.div x (float_of_int n)).

(** [sum(xs)]: left to right from the integer [0]. *)
Definition sum (xs : list float) : float :=
  fold_left PrimFloat.add xs 0%float.

(** *** [float(s)] for a string *)

Definition is_digit (c : ascii) : bool :=
  let n := ord c in (48 <=? n)%nat && (n <=? 57)%nat.

Definition digit_val (c : ascii) : Z := Z.of_nat (ord c) - 48.

Definition digits_val (ds : list ascii) : Z :=
  fold_left (fun acc d => 10 * acc + digit_val d) ds 0.

(** An underscore may only stand between two digits. *)
Fixpoint drop_underscores (prev_digit : bool) (s : list ascii)
  : option (list ascii) :=
  match s with
  | [] => Some []
  | c :: s' =>
      if Ascii.eqb c "_" then
        match s' with
        | d :: _ =>
            if prev_digit && is_digit d then drop_underscores false s'
            else None
        | [] => None
        end
      else cons c <$> drop_underscores (is_digit c) s'
  end.

Fixpoint span_digits (s : list ascii) : list ascii * list ascii :=
  match s with
  | c :: s' =>
      if is_digit c then
        let '(ds, r) := span_digits s' in (c :: ds, r)
      else ([], s)
  | [] => ([], [])
  end.

Definition parse_sign (s : list ascii) : bool * list ascii :=
  match s with
  | c :: r =>
      if Ascii.eqb c "-" then (true, r)
      else if Ascii.eqb c "+" then (false, r)
      else (false, s)
  | [] => (false, [])
  end.

(** The exponent part, which must reach the end of the text. *)
Definition parse_exponent (s : list ascii) : option Z :=
  match s with
  | [] => Some 0
  | c :: r =>
      if Ascii.eqb (lower_char c) "e" then
        let '(neg, r1) := parse_sign r in
        let '(ds, r2) := span_digits r1 in
        match ds, r2 with
        | _ :: _, [] => Some (if neg then - digits_val ds else digits_val ds)
        | _, _ => None
        end
      else None
  end.

(** Decimal text as [(m, e)], standing for [m * 10 ^ e]. *)
Definition parse_decimal (s : list ascii) : option (Z * Z) :=
  let '(ip, r1) := span_digits s in
  let '(fp, r2) :=
    match r1 with
    | c :: r => if Ascii.eqb c "." then span_digits r else ([], r1)
    | [] => ([], [])
    end in
  match (ip ++ fp)%list with
  | [] => None
  | ds =>
      e ← parse_exponent r2;
      Some (digits_val ds, e - Z.of_nat (length fp))
  end.

(** [m * 10 ^ e], correctly rounded to binary64. *)
Definition decimal_to_float (neg : bool) (m e : Z) : float :=
  SF2Prim
    match m with
    | Zpos p =>
        if 0 <=? e then
          binary_normalize prec emax
            (if neg then - (m * 10 ^ e) else m * 10 ^ e) 0 neg
        else
          SFdiv prec emax (S754_finite neg p 0)
            (S754_finite false (Z.to_pos (10 ^ (- e))) 0)
    | _ => S754_zero neg
    end.

Definition parse_float (s : list ascii) : option float :=
  let '(neg, body) := parse_sign s in
  let word := lower (string_of_list_ascii body) in
  if decide (word = "inf" ∨ word = "infinity") then
    Some (if neg then neg_infinity else infinity)
  else if decide (word = "nan") then Some nan
  else
    '(m, e) ← parse_decimal body;
    Some (decimal_to_float neg m e).

(** The text of a float, if it is one. *)
Definition float_of_str (s : string) : option float :=
  drop_underscores false (list_ascii_of_string (strip s)) ≫= parse_float.

(** [float(s)] for a string (the message is the one Python gives for a
    text without quotes or control characters). *)
Definition to_float (s : string) : result float :=
  match float_of_str s with
  | Some x => Ok x
  | None =>
      Raise (ValueError ("could not convert string to float: '" +:+ s +:+ "'"))
  end.

End Py.


(** * The ORM: tables, records and references *)

Module Orm.

(** A table lists the records a search of the model sees, oldest first.
    A model's records carry their database id. *)
Class Model (A : Type) := id_of : A -> Z.

Section Table.
Context {A : Type} `{Model A}.

(** [Model.browse(i)] on a table; [None] when no such record exists. *)
Definition browse (tbl : list A) (i : Z) : option A :=
  List.find (fun r => id_of r =? i) tbl.

(** Reading a [Many2one] field: the referenced record, or the empty
    recordset. *)
Definition many2one (tbl : list A) (ref : option Z) : option A :=
  ref ≫= browse tbl.

(** [record.write(...)] on the record with id [i]. *)
Definition write (tbl : list A) (i : Z) (f : A -> A) : list A :=
  map (fun r => if id_of r =? i then f r else r) tbl.

(** The id the next created record gets. *)
Definition next_id (tbl : list A) : Z :=
  1 + fold_right Z.max 0 (map id_of tbl).

(** One record met by [Model.search(domain, limit=1)]: a record of the
    domain replaces the best one so far when it comes before it. *)
Definition search_step (before : A -> A -> bool) (domain : A -> bool)
    (best : option A) (r : A) : option A :=
  if domain r then
    match best with
    | Some b => if before r b then Some r else best
    | None => Some r
    end
  else best.

(** [Model.search(domain, limit=1)]: of the records that satisfy
    [domain], the first one in the order [before]; records that the
    order does not separate come in table order. *)
Definition search1 (before : A -> A -> bool) (domain : A -> bool)
    (tbl : list A) : option A :=
  fold_left (search_step before domain) tbl None.
End Table.

(** The [=ilike] operator between texts that hold no SQL pattern
    character: equality up to letter case. *)
Definition ilike (pattern value : string) : bool :=
  String.eqb (Py.lower pattern) (Py.lower value).

End Orm.

(** * The models *)

(** [datetime.date] *)
Record date := { year : Z; month : Z; day : Z }.

(** [uom.uom] (host model): a unit with its category and its factor. *)
Module Uom.
Record t := { id : Z; name : string; category_id : Z; factor : float }.
#[global] Instance model : Orm.Model t := id.
End Uom.

(** [res.partner] (host model) *)
Module Partner.
Record t := { id : Z; name : string }.
#[global] Instance model : Orm.Model t := id.
End Partner.

(** [recipe.ingredient.category] *)
Module IngredientCategory.
Record t := { id : Z; name : string; parent_id : option Z }.
#[global] Instance model : Orm.Model t := id.
End IngredientCategory.

(** [recipe.ingredient] *)
Module Ingredient.
Record t := {
  id : Z;
  name : string;
  code : option string;
  category_id : option Z;
  uom_id : option Z;
  price : float;
  price_date : option date;
  supplier_id : option Z;
  active : bool;
  notes : option string }.
#[global] Instance model : Orm.Model t := id.
End Ingredient.

(** [recipe.recipe]: the fields the cost engine reads and writes.
    [line_ids] lists the recipe's lines in the model's order. *)
Module Recipe.
Record t := {
  id : Z;
  name : string;
  portions : Z;
  line_ids : list Z;
  ingredient_cost : float;
  labor_hours : float;
  energy_hours : float;
  labor_cost : float;
  energy_cost : float;
  packaging_cost : float;
  extra_cost : float;
  total_cost : float;
  grand_total : float;
  cost_per_portion : float;
  cost_per_portion_no_labor : float }.
#[global] Instance model : Orm.Model t := id.
End Recipe.

(** [recipe.recipe.line] *)
Module RecipeLine.
Record t := {
  id : Z;
  sequence : Z;
  recipe_id : Z;
  ingredient_id : option Z;
  sub_recipe_id : option Z;
  quantity : float;
  uom_id : option Z;
  cost : float }.
#[global] Instance model : Orm.Model t := id.

Definition set_cost (c : float) (l : t) : t :=
  {| id := id l; sequence := sequence l; recipe_id := recipe_id l;
     ingredient_id := ingredient_id l; sub_recipe_id := sub_recipe_id l;
     quantity := quantity l; uom_id := uom_id l; cost := c |}.
End RecipeLine.

(** The database: one table per model, the configuration parameters
    ([ir.config_parameter]) and the external ids of the units
    ([ir.model.data]). *)
Record database := {
  ir_config_parameter : gmap string string;
  ir_model_data : gmap string Z;
  uom_uom : list Uom.t;
  res_partner : list Partner.t;
  recipe_ingredient_category : list IngredientCategory.t;
  recipe_ingredient : list Ingredient.t;
  recipe_recipe : list Recipe.t;
  recipe_recipe_line : list RecipeLine.t }.

Definition set_recipe_recipe_line (ls : list RecipeLine.t) (db : database)
  : database :=
  {| ir_config_parameter := ir_config_parameter db;
     ir_model_data := ir_model_data db;
     uom_uom := uom_uom db;
     res_partner := res_partner db;
     recipe_ingredient_category := recipe_ingredient_category db;
     recipe_ingredient := recipe_ingredient db;
     recipe_recipe := recipe_recipe db;
     recipe_recipe_line := ls |}.

Definition set_recipe_recipe (rs : list Recipe.t) (db : database) : database :=
  {| ir_config_parameter := ir_config_parameter db;
     ir_model_data := ir_model_data db;
     uom_uom := uom_uom db;
     res_partner := res_partner db;
     recipe_ingredient_category := recipe_ingredient_category db;
     recipe_ingredient := recipe_ingredient db;
     recipe_recipe := rs;
     recipe_recipe_line := recipe_recipe_line db |}.

(** * The cost engine ([models/recipe_recipe.py]) *)

Module CostEngine.
Import Py Orm.

Section Host.
(** [uom.uom._compute_quantity(qty, to_unit)] of the host, called on the
    line's unit; [None] when it raises. *)
Variable _compute_quantity : Uom.t -> float -> Uom.t -> option float.

(** The body of the loop of [RecipeRecipeLine._compute_cost]: the value
    assigned to [line.cost]. *)
Definition line_cost (db : database) (line : RecipeLine.t) : float :=
  let quantity := RecipeLine.quantity line in
  match many2one (recipe_ingredient db) (RecipeLine.ingredient_id line),
        bool_float quantity with
  | Some ingredient, true =>
      match many2one (uom_uom db) (RecipeLine.uom_id line),
            many2one (uom_uom db) (Ingredient.uom_id ingredient) with
      | Some line_uom, Some ingredient_uom =>
          match _compute_quantity line_uom quantity ingredient_uom with
          | Some qty_in_ingredient_uom =>
              (qty_in_ingredient_uom * Ingredient.price ingredient)%float
          | None => (quantity * Ingredient.price ingredient)%float
          end
      | _, _ => (quantity * Ingredient.price ingredient)%float
      end
  | _, _ =>
      match many2one (recipe_recipe db) (RecipeLine.sub_recipe_id line),
            bool_float quantity with
      | Some sub_recipe, true =>
          (quantity * Recipe.total_cost sub_recipe)%float
      | _, _ => 0%float
      end
  end.

(** [RecipeRecipeLine._compute_cost] on the recordset [self]. *)
Definition _compute_cost (db : database) (self : list Z) : database :=
  fold_left
    (fun db i =>
       match browse (recipe_recipe_line db) i with
       | Some line =>
           set_recipe_recipe_line
             (write (recipe_recipe_line db) i
                (RecipeLine.set_cost (line_cost db line)))
             db
       | None => db
       end)
    self db.
End Host.

(** [ir.config_parameter.get_param(key, default)] *)
Definition get_param (db : database) (key dflt : string) : string :=
  match ir_config_parameter db !! key with
  | Some value => if bool_str value then value else dflt
  | None => dflt
  end.

(** [recipe.line_ids.mapped("cost")] *)
Definition mapped_cost (db : database) (line_ids : list Z) : list float :=
  omap (fun i => RecipeLine.cost <$> browse (recipe_recipe_line db) i)
    line_ids.

(** The body of the loop of [Recipe._compute_costs]: the recipe with its
    seven derived fields assigned. *)
Definition recipe_costs (labor_rate energy_rate : float) (db : database)
    (recipe : Recipe.t) : result Recipe.t :=
  let ingredient_cost := Py.sum (mapped_cost db (Recipe.line_ids recipe)) in
  let labor_cost := (Recipe.labor_hours recipe * labor_rate)%float in
  let energy_cost := (Recipe.energy_hours recipe * energy_rate)%float in
  let total_cost :=
    (ingredient_cost + energy_cost + Recipe.packaging_cost recipe
     + Recipe.extra_cost recipe)%float in
  let grand_total := (total_cost + labor_cost)%float in
  cost_per_portion_no_labor ←
    (if Recipe.portions recipe =? 0 then Ok 0%float
     else truediv total_cost (Recipe.portions recipe));
  cost_per_portion ←
    (if Recipe.portions recipe =? 0 then Ok 0%float
     else truediv grand_total (Recipe.portions recipe));
  Ok {| Recipe.id := Recipe.id recipe;
        Recipe.name := Recipe.name recipe;
        Recipe.portions := Recipe.portions recipe;
        Recipe.line_ids := Recipe.line_ids recipe;
        Recipe.ingredient_cost := ingredient_cost;
        Recipe.labor_hours := Recipe.labor_hours recipe;
        Recipe.energy_hours := Recipe.energy_hours recipe;
        Recipe.labor_cost := labor_cost;
        Recipe.energy_cost := energy_cost;
        Recipe.packaging_cost := Recipe.packaging_cost recipe;
        Recipe.extra_cost := Recipe.extra_cost recipe;
        Recipe.total_cost := total_cost;
        Recipe.grand_total := grand_total;
        Recipe.cost_per_portion := cost_per_portion;
        Recipe.cost_per_portion_no_labor := cost_per_portion_no_labor |}.

(** The loop of [Recipe._compute_costs] over the recordset. *)
Fixpoint compute_costs_loop (labor_rate energy_rate : float)
    (db : database) (self : list Z) : result database :=
  match self with
  | [] => Ok db
  | i :: rest =>
      match browse (recipe_recipe db) i with
      | Some recipe =>
          recipe' ← recipe_costs labor_rate energy_rate db recipe;
          compute_costs_loop labor_rate energy_rate
            (set_recipe_recipe
               (write (recipe_recipe db) i (fun _ => recipe')) db)
            rest
      | None => compute_costs_loop labor_rate energy_rate db rest
      end
  end.

(** [Recipe._compute_costs] on the recordset [self]. *)
Definition _compute_costs (db : database) (self : list Z)
  : result database :=
  labor_rate ← to_float (get_param db "chefrulo_recipe.labor_rate" "0");
  energy_rate ← to_float (get_param db "chefrulo_recipe.energy_rate" "0");
  compute_costs_loop labor_rate energy_rate db self.

(** [Recipe.action_recompute_costs] *)
Definition action_recompute_costs (db : database) (self : list Z)
  : result (database * bool) :=
  db' ← _compute_costs db self;
  Ok (db', true).

End CostEngine.

(** * [datetime.strptime(text, fmt).date()] for formats made of [%Y], [%m],
      [%d] and literal characters *)

Module Strptime.
Import Py.

Inductive directive := Year | Month | Day | Lit (c : ascii).

Fixpoint directives (fmt : list ascii) : list directive :=
  match fmt with
  | c :: rest =>
      match rest with
      | k :: rest' =>
          if Ascii.eqb c "%" then
            (if Ascii.eqb k "Y" then Year
             else if Ascii.eqb k "m" then Month
             else if Ascii.eqb k "d" then Day
             else Lit k) :: directives rest'
          else Lit c :: directives rest
      | [] => [Lit c]
      end
  | [] => []
  end.

Definition in_range (lo hi : nat) (c : ascii) : bool :=
  (lo <=? ord c)%nat && (ord c <=? hi)%nat.

(** The ways a directive can consume a prefix of the text, in the order
    the pattern of the host tries them: the value read and the rest. *)
Definition read (d : directive) (s : list ascii)
  : list (Z * list ascii) :=
  let two (ok : ascii -> ascii -> bool) :=
    match s with
    | a :: b :: r =>
        if ok a b then [(digits_val [a; b], r)] else []
    | _ => []
    end in
  let one :=
    match s with
    | a :: r => if in_range 49 57 a then [(digit_val a, r)] else []
    | [] => []
    end in
  match d with
  | Year =>
      match s with
      | a :: b :: c :: e :: r =>
          if forallb is_digit [a; b; c; e]
          then [(digits_val [a; b; c; e], r)] else []
      | _ => []
      end
  | Month =>
      two (fun a b => Ascii.eqb a "1" && in_range 48 50 b)
      ++ two (fun a b => Ascii.eqb a "0" && in_range 49 57 b)
      ++ one
  | Day =>
      two (fun a b => Ascii.eqb a "3" && in_range 48 49 b)
      ++ two (fun a b => in_range 49 50 a && is_digit b)
      ++ two (fun a b => Ascii.eqb a "0" && in_range 49 57 b)
      ++ one
      ++ two (fun a b => Ascii.eqb a " " && in_range 49 57 b)
  | Lit c =>
      match s with
      | a :: r => if Ascii.eqb (lower_char a) (lower_char c) then [(0, r)] else []
      | [] => []
      end
  end%list.

Definition set_field (d : directive) (v : Z) (acc : date) : date :=
  match d with
  | Year => {| year := v; month := month acc; day := day acc |}
  | Month => {| year := year acc; month := v; day := day acc |}
  | Day => {| year := year acc; month := month acc; day := v |}
  | Lit _ => acc
  end.

Fixpoint first_some {A B : Type} (f : A -> option B) (l : list A)
  : option B :=
  match l with
  | [] => None
  | a :: l' =>
      match f a with
      | Some b => Some b
      | None => first_some f l'
      end
  end.

(** The first way to match the whole text, with backtracking. *)
Fixpoint matching (ds : list directive) (s : list ascii) (acc : date)
  : option date :=
  match ds with
  | [] => match s with [] => Some acc | _ => None end
  | d :: ds' =>
      first_some (fun '(v, r) => matching ds' r (set_field d v acc))
        (read d s)
  end.

Definition is_leap (y : Z) : bool :=
  (y mod 4 =? 0) && (negb (y mod 100 =? 0) || (y mod 400 =? 0)).

Definition days_in_month (y m : Z) : Z :=
  if m =? 2 then (if is_leap y then 29 else 28)
  else if (m =? 4) || (m =? 6) || (m =? 9) || (m =? 11) then 30
  else 31.

(** The dates [datetime.date] accepts. *)
Definition valid (d : date) : bool :=
  (1 <=? year d) && (year d <=? 9999)
  && (1 <=? month d) && (month d <=? 12)
  && (1 <=? day d) && (day d <=? days_in_month (year d) (month d)).

(** [None] stands for the [ValueError] raised when the text does not
    match the format or names no date.  Fields the format does not set
    keep the defaults of the host: 1900-01-01. *)
Definition strptime_date (text fmt : string) : option date :=
  d ← matching (directives (list_ascii_of_string fmt))
        (list_ascii_of_string text)
        {| year := 1900; month := 1; day := 1 |};
  if valid d then Some d else None.

End Strptime.

(** * The ingredient importer ([wizard/ingredient_import.py]) *)

Module IngredientImport.
Import Py Orm.

(** A row of [csv.DictReader]: a missing value is [None]. *)
Abbreviation row := (gmap string (option string)).

Definition UOM_MAPPING : gmap string string :=
  list_to_map [
    ("kg", "uom.product_uom_kgm");
    ("kilo", "uom.product_uom_kgm");
    ("kilogram", "uom.product_uom_kgm");
    ("g", "uom.product_uom_gram");
    ("gram", "uom.product_uom_gram");
    ("l", "uom.product_uom_litre");
    ("liter", "uom.product_uom_litre");
    ("litre", "uom.product_uom_litre");
    ("ml", "uom.product_uom_millilitre");
    ("milliliter", "uom.product_uom_millilitre");
    ("millilitre", "uom.product_uom_millilitre");
    ("unit", "uom.product_uom_unit");
    ("units", "uom.product_uom_unit");
    ("pcs", "uom.product_uom_unit");
    ("piece", "uom.product_uom_unit");
    ("dozen", "uom.product_uom_dozen")
  ].

(** [self.env.ref(xmlid, raise_if_not_found=False)] for a unit *)
Definition env_ref (db : database) (xmlid : string) : option Uom.t :=
  ir_model_data db !! xmlid ≫= browse (uom_uom db).

(** The order of a model without [_order] in this repository: the host's,
    taken to be the order of the table. *)
Definition table_order {A : Type} (_ _ : A) : bool := false.

(** [self.env["uom.uom"].search([("name", "=ilike", uom_name)], limit=1)] *)
Definition search_uom (db : database) (uom_name : string) : option Uom.t :=
  search1 table_order (fun u => ilike uom_name (Uom.name u)) (uom_uom db).

Definition _get_uom (db : database) (uom_name : string) : option Uom.t :=
  if bool_str uom_name then
    let uom_name_lower := strip (lower uom_name) in
    match UOM_MAPPING !! uom_name_lower ≫= env_ref db with
    | Some uom => Some uom
    | None => search_uom db uom_name
    end
  else None.

Definition set_recipe_ingredient_category
    (cs : list IngredientCategory.t) (db : database) : database :=
  {| ir_config_parameter := ir_config_parameter db;
     ir_model_data := ir_model_data db;
     uom_uom := uom_uom db;
     res_partner := res_partner db;
     recipe_ingredient_category := cs;
     recipe_ingredient := recipe_ingredient db;
     recipe_recipe := recipe_recipe db;
     recipe_recipe_line := recipe_recipe_line db |}.

Definition set_res_partner (ps : list Partner.t) (db : database)
  : database :=
  {| ir_config_parameter := ir_config_parameter db;
     ir_model_data := ir_model_data db;
     uom_uom := uom_uom db;
     res_partner := ps;
     recipe_ingredient_category := recipe_ingredient_category db;
     recipe_ingredient := recipe_ingredient db;
     recipe_recipe := recipe_recipe db;
     recipe_recipe_line := recipe_recipe_line db |}.

Definition set_recipe_ingredient (ings : list Ingredient.t) (db : database)
  : database :=
  {| ir_config_parameter := ir_config_parameter db;
     ir_model_data := ir_model_data db;
     uom_uom := uom_uom db;
     res_partner := res_partner db;
     recipe_ingredient_category := recipe_ingredient_category db;
     recipe_ingredient := ings;
     recipe_recipe := recipe_recipe db;
     recipe_recipe_line := recipe_recipe_line db |}.

(** [_order = "name"] *)
Definition category_order (a b : IngredientCategory.t) : bool :=
  String.ltb (IngredientCategory.name a) (IngredientCategory.name b).

Definition ingredient_order (a b : Ingredient.t) : bool :=
  String.ltb (Ingredient.name a) (Ingredient.name b).

Definition _get_or_create_category (db : database) (category_name : string)
  : database * option IngredientCategory.t :=
  if bool_str category_name then
    match search1 category_order
            (fun c => ilike (strip category_name) (IngredientCategory.name c))
            (recipe_ingredient_category db) with
    | Some category => (db, Some category)
    | None =>
        let category :=
          {| IngredientCategory.id := next_id (recipe_ingredient_category db);
             IngredientCategory.name := strip category_name;
             IngredientCategory.parent_id := None |} in
        (set_recipe_ingredient_category
           (recipe_ingredient_category db ++ [category]) db,
         Some category)
    end
  else (db, None).

Definition _get_or_create_supplier (db : database) (supplier_name : string)
  : database * option Partner.t :=
  if bool_str supplier_name then
    match search1 table_order
            (fun p => ilike (strip supplier_name) (Partner.name p))
            (res_partner db) with
    | Some partner => (db, Some partner)
    | None =>
        let partner :=
          {| Partner.id := next_id (res_partner db);
             Partner.name := strip supplier_name |} in
        (set_res_partner (res_partner db ++ [partner]) db, Some partner)
    end
  else (db, None).

Definition date_formats : list string :=
  ["%Y-%m-%d"; "%d/%m/%Y"; "%m/%d/%Y"; "%d-%m-%Y"; "%Y/%m/%d"].

Definition _parse_date (date_str : string) : option date :=
  if bool_str date_str then
    Strptime.first_some
      (fun fmt => Strptime.strptime_date (strip date_str) fmt) date_formats
  else None.

(** The dictionary [vals] handed to [write] and [create]: a key that is
    absent is [None]. *)
Module Vals.
Record t := {
  name : option string;
  price : option float;
  uom_id : option Z;
  price_date : option date;
  code : option string;
  category_id : option Z;
  supplier_id : option Z }.
End Vals.

(** [ingredient.write(vals)]: the keys of [vals] are assigned, the other
    fields keep their value. *)
Definition write_vals (vals : Vals.t) (i : Ingredient.t) : Ingredient.t :=
  {| Ingredient.id := Ingredient.id i;
     Ingredient.name := default (Ingredient.name i) (Vals.name vals);
     Ingredient.code :=
       match Vals.code vals with
       | Some c => Some c
       | None => Ingredient.code i
       end;
     Ingredient.category_id :=
       match Vals.category_id vals with
       | Some c => Some c
       | None => Ingredient.category_id i
       end;
     Ingredient.uom_id :=
       match Vals.uom_id vals with
       | Some u => Some u
       | None => Ingredient.uom_id i
       end;
     Ingredient.price := default (Ingredient.price i) (Vals.price vals);
     Ingredient.price_date :=
       match Vals.price_date vals with
       | Some d => Some d
       | None => Ingredient.price_date i
       end;
     Ingredient.supplier_id :=
       match Vals.supplier_id vals with
       | Some p => Some p
       | None => Ingredient.supplier_id i
       end;
     Ingredient.active := Ingredient.active i;
     Ingredient.notes := Ingredient.notes i |}.

(** A new record before its values are assigned: the defaults of the
    model ([active] is true, the other fields are empty). *)
Definition new_ingredient (id : Z) : Ingredient.t :=
  {| Ingredient.id := id;
     Ingredient.name := "";
     Ingredient.code := None;
     Ingredient.category_id := None;
     Ingredient.uom_id := None;
     Ingredient.price := 0%float;
     Ingredient.price_date := None;
     Ingredient.supplier_id := None;
     Ingredient.active := true;
     Ingredient.notes := None |}.

(** [Ingredient.create(vals)] *)
Definition create (vals : Vals.t) (db : database) : database :=
  set_recipe_ingredient
    (recipe_ingredient db
     ++ [write_vals vals (new_ingredient (next_id (recipe_ingredient db)))])
    db.

(** [Ingredient.search([("code", "=", code)], limit=1)] *)
Definition search_code (db : database) (code : string)
  : option Ingredient.t :=
  search1 ingredient_order
    (fun i => bool_decide (Ingredient.code i = Some code))
    (recipe_ingredient db).

(** [Ingredient.search([("name", "=ilike", name)], limit=1)] *)
Definition search_name (db : database) (name : string)
  : option Ingredient.t :=
  search1 ingredient_order (fun i => ilike name (Ingredient.name i))
    (recipe_ingredient db).

(** ** The loop of [action_import] *)

(** The variables the loop updates. *)
Record state := {
  db : database;
  created : Z;
  updated : Z;
  errors : list string;
  row_num : Z }.

Definition append_error (msg : string) (st : state) : state :=
  {| db := db st; created := created st; updated := updated st;
     errors := errors st ++ [msg]; row_num := row_num st |}.

(** [row.get(key, default)] *)
Definition row_get (r : row) (key : string) (dflt : option string)
  : option string :=
  default dflt (r !! key).

(** [value.strip()] on what [row.get] returned *)
Definition strip_value (value : option string) : result string :=
  match value with
  | Some s => Ok (strip s)
  | None =>
      Raise (AttributeError "'NoneType' object has no attribute 'strip'")
  end.

(** The values read from a row. *)
Record row_values := {
  code : string;
  name : string;
  category_name : string;
  price_str : string;
  uom_name : string;
  supplier_name : string;
  date_str : string }.

Definition read_row (r : row) : result row_values :=
  code ← strip_value (row_get r "code" (Some ""));
  name ← strip_value (row_get r "name" (Some ""));
  category_name ← strip_value (row_get r "category" (Some ""));
  price_str ← strip_value (row_get r "price" (Some "0"));
  uom_name ← strip_value (row_get r "uom" (row_get r "unit" (Some "")));
  supplier_name ← strip_value (row_get r "supplier" (Some ""));
  date_str ← strip_value (row_get r "date" (Some ""));
  Ok {| code := code; name := name; category_name := category_name;
        price_str := price_str; uom_name := uom_name;
        supplier_name := supplier_name; date_str := date_str |}.

(** [f"Row {row_num}: {text}"] *)
Definition row_message (row_num : Z) (text : string) : string :=
  "Row " +:+ str_int row_num +:+ ": " +:+ text.

Section Clock.
(** [fields.Date.today()] *)
Variable today : date.

(** The dictionary [vals] of a row. *)
Definition prepare_vals (v : row_values) (price : float) (uom : Uom.t)
    (category : option IngredientCategory.t) (supplier : option Partner.t)
    (price_date : date) : Vals.t :=
  {| Vals.name := Some (name v);
     Vals.price := Some price;
     Vals.uom_id := Some (Uom.id uom);
     Vals.price_date := Some price_date;
     Vals.code := if bool_str (code v) then Some (code v) else None;
     Vals.category_id := IngredientCategory.id <$> category;
     Vals.supplier_id := Partner.id <$> supplier |}.

(** The existing ingredient of a row: by code, then by name. *)
Definition find_ingredient (db : database) (v : row_values)
  : option Ingredient.t :=
  let ingredient :=
    if bool_str (code v) then search_code db (code v) else None in
  match ingredient with
  | Some i => Some i
  | None => search_name db (name v)
  end.

(** The body of the [try] block, on a state whose [row_num] is the
    number of the row. *)
Definition try_row (r : row) (st : state) : result state :=
  v ← read_row r;
  if negb (bool_str (name v)) then
    Ok (append_error (row_message (row_num st) "Missing name") st)
  else if negb (bool_str (uom_name v)) then
    Ok (append_error
          (row_message (row_num st) "Missing unit of measure") st)
  else
    match to_float (replace "," "." (price_str v)) with
    | Raise (ValueError _) =>
        Ok (append_error
              (row_message (row_num st)
                 ("Invalid price '" +:+ price_str v +:+ "'")) st)
    | Raise e => Raise e
    | Ok price =>
        match _get_uom (db st) (uom_name v) with
        | None =>
            Ok (append_error
                  (row_message (row_num st)
                     ("Unknown UoM '" +:+ uom_name v +:+ "'")) st)
        | Some uom =>
            let '(db1, category) :=
              if bool_str (category_name v)
              then _get_or_create_category (db st) (category_name v)
              else (db st, None) in
            let '(db2, supplier) :=
              if bool_str (supplier_name v)
              then _get_or_create_supplier db1 (supplier_name v)
              else (db1, None) in
            let price_date := default today (_parse_date (date_str v)) in
            let ingredient := find_ingredient db2 v in
            let vals :=
              prepare_vals v price uom category supplier price_date in
            match ingredient with
            | Some i =>
                Ok {| db :=
                        set_recipe_ingredient
                          (write (recipe_ingredient db2) (Ingredient.id i)
                             (write_vals vals)) db2;
                      created := created st;
                      updated := updated st + 1;
                      errors := errors st;
                      row_num := row_num st |}
            | None =>
                Ok {| db := create vals db2;
                      created := created st + 1;
                      updated := updated st;
                      errors := errors st;
                      row_num := row_num st |}
            end
        end
    end.

(** One turn of the loop: count the row, run the [try] block and record
    what it raises. *)
Definition import_row (st : state) (r : row) : state :=
  let st :=
    {| db := db st; created := created st; updated := updated st;
       errors := errors st; row_num := row_num st + 1 |} in
  match try_row r st with
  | Ok st' => st'
  | Raise e => append_error (row_message (row_num st) (str_exn e)) st
  end.

Definition import_rows (rows : list row) (st : state) : state :=
  fold_left import_row rows st.

(** The state before the loop. *)
Definition initial (db : database) : state :=
  {| db := db; created := 0; updated := 0; errors := []; row_num := 1 |}.

(** [result_lines] *)
Definition result_lines (created updated : Z) (errors : list string)
  : list string :=
  ["Import completed!";
   "Created: " +:+ str_int created;
   "Updated: " +:+ str_int updated]
  ++ match errors with
     | [] => []
     | _ =>
         [nl +:+ "Errors (" +:+ str_int (Z.of_nat (length errors)) +:+ "):"]
         ++ take 20 errors
         ++ (if 20 <? Z.of_nat (length errors) then
               ["... and " +:+ str_int (Z.of_nat (length errors) - 20)
                +:+ " more errors"]
             else [])
     end.

(** [csv.DictReader] over the records [csv.reader] yields, with the
    header names of [action_import]: the first record names the
    columns, empty records are skipped, a short record leaves [None]
    in the columns it does not reach (values beyond the last column go
    under a key no column has). *)
Definition dict_row (fieldnames : list string) (record : list string)
  : row :=
  fold_left
    (fun d '(i, key) => <[key := record !! i]> d)
    (imap (fun i key => (i, key)) fieldnames) ∅.

Definition DictReader (records : list (list string)) : list row :=
  match records with
  | [] => []
  | header :: data =>
      let fieldnames := map (fun h => strip (lower h)) header in
      map (dict_row fieldnames)
        (filter (fun record => record ≠ []) data)
  end.

(** [action_import] on the records of the decoded file ([None] when the
    wizard has no file): the database and [result_message]. *)
Definition action_import (db0 : database)
    (file : option (list (list string))) : result (database * string) :=
  match file with
  | None => Raise (UserError "Please select a CSV file to import.")
  | Some records =>
      let st := import_rows (DictReader records) (initial db0) in
      Ok (db st,
          join nl (result_lines (created st) (updated st) (errors st)))
  end.
End Clock.

End IngredientImport.

(** * A small database, used to run the definitions *)

Module Sample.
Import Py Orm.

Definition kg : Uom.t :=
  {| Uom.id := 12; Uom.name := "kg"; Uom.category_id := 2;
     Uom.factor := 1 |}.
Definition gram : Uom.t :=
  {| Uom.id := 13; Uom.name := "g"; Uom.category_id := 2;
     Uom.factor := 1000 |}.
Definition units : Uom.t :=
  {| Uom.id := 1; Uom.name := "Units"; Uom.category_id := 1;
     Uom.factor := 1 |}.

(** A conversion in the manner of the host: between units of one
    category by their factors, an error across categories. *)
Definition convert (from : Uom.t) (qty : float) (to : Uom.t)
  : option float :=
  if Uom.id from =? Uom.id to then Some qty
  else if Uom.category_id from =? Uom.category_id to
  then Some (qty / Uom.factor from * Uom.factor to)%float
  else None.

Definition flour : Ingredient.t :=
  {| Ingredient.id := 1; Ingredient.name := "Flour";
     Ingredient.code := Some "F1"; Ingredient.category_id := None;
     Ingredient.uom_id := Some 12; Ingredient.price := 1.5;
     Ingredient.price_date := Some {| year := 2024; month := 1; day := 15 |};
     Ingredient.supplier_id := None; Ingredient.active := true;
     Ingredient.notes := None |}.

Definition dough : Recipe.t :=
  {| Recipe.id := 1; Recipe.name := "Dough"; Recipe.portions := 4;
     Recipe.line_ids := [1; 2; 3];
     Recipe.ingredient_cost := 0; Recipe.labor_hours := 0.5;
     Recipe.energy_hours := 2; Recipe.labor_cost := 0;
     Recipe.energy_cost := 0; Recipe.packaging_cost := 0.25;
     Recipe.extra_cost := 0.5; Recipe.total_cost := 0;
     Recipe.grand_total := 0; Recipe.cost_per_portion := 0;
     Recipe.cost_per_portion_no_labor := 0 |}.

Definition sauce : Recipe.t :=
  {| Recipe.id := 2; Recipe.name := "Sauce"; Recipe.portions := 0;
     Recipe.line_ids := [];
     Recipe.ingredient_cost := 0; Recipe.labor_hours := 1;
     Recipe.energy_hours := 0; Recipe.labor_cost := 0;
     Recipe.energy_cost := 0; Recipe.packaging_cost := 2.5;
     Recipe.extra_cost := 0; Recipe.total_cost := 2.5;
     Recipe.grand_total := 2.5; Recipe.cost_per_portion := 0;
     Recipe.cost_per_portion_no_labor := 0 |}.

(** 500 g of flour. *)
Definition flour_line : RecipeLine.t :=
  {| RecipeLine.id := 1; RecipeLine.sequence := 10;
     RecipeLine.recipe_id := 1; RecipeLine.ingredient_id := Some 1;
     RecipeLine.sub_recipe_id := None; RecipeLine.quantity := 500;
     RecipeLine.uom_id := Some 13; RecipeLine.cost := 0 |}.

(** Two sauces. *)
Definition sauce_line : RecipeLine.t :=
  {| RecipeLine.id := 2; RecipeLine.sequence := 20;
     RecipeLine.recipe_id := 1; RecipeLine.ingredient_id := None;
     RecipeLine.sub_recipe_id := Some 2; RecipeLine.quantity := 2;
     RecipeLine.uom_id := Some 1; RecipeLine.cost := 0 |}.

(** A line with both references set, in units that do not convert. *)
Definition both_line : RecipeLine.t :=
  {| RecipeLine.id := 3; RecipeLine.sequence := 30;
     RecipeLine.recipe_id := 1; RecipeLine.ingredient_id := Some 1;
     RecipeLine.sub_recipe_id := Some 2; RecipeLine.quantity := 3;
     RecipeLine.uom_id := Some 1; RecipeLine.cost := 0 |}.

(** A line with no reference, and a line without a unit. *)
Definition empty_line : RecipeLine.t :=
  {| RecipeLine.id := 4; RecipeLine.sequence := 40;
     RecipeLine.recipe_id := 1; RecipeLine.ingredient_id := None;
     RecipeLine.sub_recipe_id := None; RecipeLine.quantity := 1;
     RecipeLine.uom_id := Some 1; RecipeLine.cost := 0 |}.
Definition unitless_line : RecipeLine.t :=
  {| RecipeLine.id := 5; RecipeLine.sequence := 50;
     RecipeLine.recipe_id := 1; RecipeLine.ingredient_id := Some 1;
     RecipeLine.sub_recipe_id := None; RecipeLine.quantity := 2;
     RecipeLine.uom_id := None; RecipeLine.cost := 0 |}.

Definition db : database :=
  {| ir_config_parameter :=
       {[ "chefrulo_recipe.labor_rate" := "10";
          "chefrulo_recipe.energy_rate" := "0.5" ]};
     ir_model_data :=
       {[ "uom.product_uom_kgm" := 12; "uom.product_uom_gram" := 13;
          "uom.product_uom_unit" := 1 ]};
     uom_uom := [units; kg; gram];
     res_partner := [];
     recipe_ingredient_category := [];
     recipe_ingredient := [flour];
     recipe_recipe := [dough; sauce];
     recipe_recipe_line :=
       [flour_line; sauce_line; both_line; empty_line; unitless_line] |}.

Definition today : date := {| year := 2024; month := 3; day := 1 |}.

(** Rows of a file with the columns [code], [name], [price] and [uom]. *)
Definition sugar_row : gmap string (option string) :=
  {[ "code" := Some "S1"; "name" := Some "Sugar"; "price" := Some "12,50";
     "uom" := Some "Kg" ]}.
Definition cane_sugar_row : gmap string (option string) :=
  {[ "code" := Some "S1"; "name" := Some "Cane sugar";
     "price" := Some "13"; "uom" := Some "kg" ]}.

Definition bad_price_row : gmap string (option string) :=
  {[ "code" := Some ""; "name" := Some "Pepper"; "price" := Some "1,234.5";
     "uom" := Some "g" ]}.
Definition short_row : gmap string (option string) :=
  {[ "code" := Some "P1"; "name" := Some "Pepper"; "price" := None;
     "uom" := None ]}.


(** The sample database before any ingredient, and with a labour rate
    that is no number. *)
Definition db_without_ingredients : database :=
  {| ir_config_parameter := ir_config_parameter db;
     ir_model_data := ir_model_data db;
     uom_uom := uom_uom db;
     res_partner := [];
     recipe_ingredient_category := [];
     recipe_ingredient := [];
     recipe_recipe := [];
     recipe_recipe_line := [] |}.
Definition db_with_bad_rate : database :=
  {| ir_config_parameter := {[ "chefrulo_recipe.labor_rate" := "ten" ]};
     ir_model_data := ir_model_data db;
     uom_uom := uom_uom db;
     res_partner := [];
     recipe_ingredient_category := [];
     recipe_ingredient := [flour];
     recipe_recipe := [dough; sauce];
     recipe_recipe_line := [flour_line; sauce_line; both_line] |}.

(** A row of a file with the columns [name] and [uom] only. *)
Definition flour_row : gmap string (option string) :=
  {[ "name" := Some "flour"; "uom" := Some "kg" ]}.

End Sample.

(** * Views of the cost engine used in its properties *)

Module CostViews.
Import Py Orm CostEngine.

(** The line with another sub-recipe reference. *)
Definition with_sub_recipe (ref : option Z) (l : RecipeLine.t)
  : RecipeLine.t :=
  {| RecipeLine.id := RecipeLine.id l;
     RecipeLine.sequence := RecipeLine.sequence l;
     RecipeLine.recipe_id := RecipeLine.recipe_id l;
     RecipeLine.ingredient_id := RecipeLine.ingredient_id l;
     RecipeLine.sub_recipe_id := ref;
     RecipeLine.quantity := RecipeLine.quantity l;
     RecipeLine.uom_id := RecipeLine.uom_id l;
     RecipeLine.cost := RecipeLine.cost l |}.

(** Two databases in which a line costs the same: [line_cost] reads the
    ingredients, the units and the recipes, never the lines. *)
Definition same_inputs (db db' : database) : Prop :=
  recipe_ingredient db' = recipe_ingredient db
  /\ uom_uom db' = uom_uom db
  /\ recipe_recipe db' = recipe_recipe db.

(** The fields [_compute_costs] reads on a recipe. *)
Definition same_entries (r r' : Recipe.t) : Prop :=
  Recipe.id r' = Recipe.id r
  /\ Recipe.name r' = Recipe.name r
  /\ Recipe.portions r' = Recipe.portions r
  /\ Recipe.line_ids r' = Recipe.line_ids r
  /\ Recipe.labor_hours r' = Recipe.labor_hours r
  /\ Recipe.energy_hours r' = Recipe.energy_hours r
  /\ Recipe.packaging_cost r' = Recipe.packaging_cost r
  /\ Recipe.extra_cost r' = Recipe.extra_cost r.

(** The equations between the fields of a recipe [r'] that was costed
    with the given rates over the given lines. *)
Definition costed (labor_rate energy_rate : float)
    (lines : list RecipeLine.t) (r' : Recipe.t) : Prop :=
  Recipe.ingredient_cost r'
  = Py.sum (omap (fun i => RecipeLine.cost <$> browse lines i)
              (Recipe.line_ids r'))
  /\ Recipe.labor_cost r' = (Recipe.labor_hours r' * labor_rate)%float
  /\ Recipe.energy_cost r' = (Recipe.energy_hours r' * energy_rate)%float
  /\ Recipe.total_cost r'
     = (Recipe.ingredient_cost r' + Recipe.energy_cost r'
        + Recipe.packaging_cost r' + Recipe.extra_cost r')%float
  /\ Recipe.grand_total r'
     = (Recipe.total_cost r' + Recipe.labor_cost r')%float
  /\ Recipe.cost_per_portion_no_labor r'
     = (if Recipe.portions r' =? 0 then 0%float
        else (Recipe.total_cost r' / float_of_int (Recipe.portions r'))%float)
  /\ Recipe.cost_per_portion r'
     = (if Recipe.portions r' =? 0 then 0%float
        else (Recipe.grand_total r' / float_of_int (Recipe.portions r'))%float).

End CostViews.

(** * Views of the importer used in its properties *)

Module ImportViews.
Import Py Orm IngredientImport.

(** The tables the importer only reads, the units and their external ids,
    are the same in both databases. *)
Definition same_registry (db db' : database) : Prop :=
  ir_model_data db' = ir_model_data db
  /\ uom_uom db' = uom_uom db.

(** The state once the row is counted. *)
Definition counted (st : state) : state :=
  {| db := db st; created := created st; updated := updated st;
     errors := errors st; row_num := row_num st + 1 |}.

(** The database in which the ingredient of a valid row is looked up:
    the one left by the category and the supplier of the row. *)
Definition prepared (db0 : database) (v : row_values)
  : database * option IngredientCategory.t * option Partner.t :=
  let '(db1, category) :=
    if bool_str (category_name v)
    then _get_or_create_category db0 (category_name v)
    else (db0, None) in
  let '(db2, supplier) :=
    if bool_str (supplier_name v)
    then _get_or_create_supplier db1 (supplier_name v)
    else (db1, None) in
  (db2, category, supplier).

(** The text recorded for a row that fails, if it fails. *)
Definition failure (db0 : database) (r : row) : option string :=
  match read_row r with
  | Raise e => Some (str_exn e)
  | Ok v =>
      if negb (bool_str (name v)) then Some "Missing name"
      else if negb (bool_str (uom_name v)) then Some "Missing unit of measure"
      else
        match float_of_str (replace "," "." (price_str v)) with
        | None => Some ("Invalid price '" +:+ price_str v +:+ "'")
        | Some _ =>
            match _get_uom db0 (uom_name v) with
            | None => Some ("Unknown UoM '" +:+ uom_name v +:+ "'")
            | Some _ => None
            end
        end
  end.




Section Clock.
Variable today : date.

(** What a row that passes the checks does. *)
Definition upsert (st : state) (v : row_values) (price : float)
    (uom : Uom.t) : state :=
  let '(db2, category, supplier) := prepared (db st) v in
  let vals :=
    prepare_vals v price uom category supplier
      (default today (_parse_date (date_str v))) in
  match find_ingredient db2 v with
  | Some i =>
      {| db :=
           set_recipe_ingredient
             (write (recipe_ingredient db2) (Ingredient.id i)
                (write_vals vals)) db2;
         created := created st;
         updated := updated st + 1;
         errors := errors st;
         row_num := row_num st |}
  | None =>
      {| db := create vals db2;
         created := created st + 1;
         updated := updated st;
         errors := errors st;
         row_num := row_num st |}
  end.

(** The keys of the dictionary [vals] of a row: name, price, unit and
    price date are always there; the code only when the row has one; no
    category and no supplier when the row names none. *)
Definition row_vals (v : row_values) (price : float) (uom : Uom.t)
    (vals : Vals.t) : Prop :=
  Vals.name vals = Some (name v)
  /\ Vals.price vals = Some price
  /\ Vals.uom_id vals = Some (Uom.id uom)
  /\ Vals.price_date vals = Some (default today (_parse_date (date_str v)))
  /\ Vals.code vals = (if bool_str (code v) then Some (code v) else None)
  /\ (category_name v = "" -> Vals.category_id vals = None)
  /\ (supplier_name v = "" -> Vals.supplier_id vals = None).

(** The row wrote its values on the ingredient [i] and counted an update. *)
Definition updates (st st' : state) (v : row_values) (price : float)
    (uom : Uom.t) (i : Ingredient.t) : Prop :=
  exists vals,
    row_vals v price uom vals
    /\ recipe_ingredient (db st')
       = write (recipe_ingredient (db st)) (Ingredient.id i) (write_vals vals)
    /\ updated st' = updated st + 1
    /\ created st' = created st.

(** The row created an ingredient from its values and counted a creation. *)
Definition creates (st st' : state) (v : row_values) (price : float)
    (uom : Uom.t) : Prop :=
  exists vals,
    row_vals v price uom vals
    /\ recipe_ingredient (db st')
       = (recipe_ingredient (db st)
          ++ [write_vals vals
                (new_ingredient (next_id (recipe_ingredient (db st))))])%list
    /\ created st' = created st + 1
    /\ updated st' = updated st.

End Clock.

End ImportViews.

(** * The other methods of the models *)

Module ModelMethods.
Import Py Orm IngredientImport.

(** [Model.search_count(domain)] *)
Definition search_count {A : Type} (domain : A -> bool) (tbl : list A) : Z :=
  Z.of_nat (length (List.filter domain tbl)).

(** The value [RecipeIngredientCategory._compute_ingredient_count] assigns
    to [category.ingredient_count]: the ingredients of the category that
    are not archived (the host adds [active = True] to a domain that does
    not mention [active]). *)
Definition ingredient_count (db : database) (category : IngredientCategory.t)
  : Z :=
  search_count
    (fun i =>
       Ingredient.active i
       && bool_decide
            (Ingredient.category_id i
             = Some (IngredientCategory.id category)))
    (recipe_ingredient db).

(** [RecipeIngredientCategory._compute_ingredient_count] on the recordset
    [self]: the count of each category, by id (the field is not stored). *)
Definition _compute_ingredient_count (db : database)
    (self : list IngredientCategory.t) : list (Z * Z) :=
  map (fun category =>
         (IngredientCategory.id category, ingredient_count db category))
    self.

(** [RecipeRecipeLine._onchange_ingredient_id] on the line of the form. *)
Definition _onchange_ingredient_id (db : database) (self : RecipeLine.t)
  : RecipeLine.t :=
  match many2one (recipe_ingredient db) (RecipeLine.ingredient_id self) with
  | Some ingredient =>
      {| RecipeLine.id := RecipeLine.id self;
         RecipeLine.sequence := RecipeLine.sequence self;
         RecipeLine.recipe_id := RecipeLine.recipe_id self;
         RecipeLine.ingredient_id := RecipeLine.ingredient_id self;
         RecipeLine.sub_recipe_id := None;
         RecipeLine.quantity := RecipeLine.quantity self;
         RecipeLine.uom_id := Ingredient.uom_id ingredient;
         RecipeLine.cost := RecipeLine.cost self |}
  | None => self
  end.

(** [RecipeRecipeLine._onchange_sub_recipe_id] on the line of the form. *)
Definition _onchange_sub_recipe_id (db : database) (self : RecipeLine.t)
  : RecipeLine.t :=
  match many2one (recipe_recipe db) (RecipeLine.sub_recipe_id self) with
  | Some _ =>
      {| RecipeLine.id := RecipeLine.id self;
         RecipeLine.sequence := RecipeLine.sequence self;
         RecipeLine.recipe_id := RecipeLine.recipe_id self;
         RecipeLine.ingredient_id := None;
         RecipeLine.sub_recipe_id := RecipeLine.sub_recipe_id self;
         RecipeLine.quantity := RecipeLine.quantity self;
         RecipeLine.uom_id :=
           match env_ref db "uom.product_uom_unit" with
           | Some unit_uom => Some (Uom.id unit_uom)
           | None => RecipeLine.uom_id self
           end;
         RecipeLine.cost := RecipeLine.cost self |}
  | None => self
  end.

End ModelMethods.

(** * Views used in further properties *)

Module MoreViews.
Import Py Orm IngredientImport ImportViews.


(** The ids, and the codes that are set, are borne by one record each. *)
Definition unique_keys (tbl : list Ingredient.t) : Prop :=
  NoDup (map Ingredient.id tbl) /\ NoDup (omap Ingredient.code tbl).

(** A reference that is empty or names a record of the table. *)
Definition resolves {A : Type} `{Model A} (tbl : list A) (ref : option Z)
  : Prop :=
  match ref with
  | Some i => is_Some (browse tbl i)
  | None => True
  end.

(** Every ingredient refers to a unit, a category and a supplier that
    exist, where it refers to one. *)
Definition well_referenced (db0 : database) : Prop :=
  Forall
    (fun i =>
       resolves (uom_uom db0) (Ingredient.uom_id i)
       /\ resolves (recipe_ingredient_category db0) (Ingredient.category_id i)
       /\ resolves (res_partner db0) (Ingredient.supplier_id i))
    (recipe_ingredient db0).

(** The searches of the host skip the archived records of a model with
    an [active] field; a table without archived records is one they see
    whole. *)
Definition no_archived (tbl : list Ingredient.t) : Prop :=
  Forall (fun i => Ingredient.active i = true) tbl.

(** The active ingredients whose category is one of [ids]. *)
Definition in_categories (ids : list Z) (i : Ingredient.t) : bool :=
  Ingredient.active i
  && match Ingredient.category_id i with
     | Some k => bool_decide (k ∈ ids)
     | None => false
     end.

(** What the importer has no column for. *)
Definition kept_fields (i : Ingredient.t) : Z * bool * option string :=
  (Ingredient.id i, Ingredient.active i, Ingredient.notes i).

End MoreViews.

(** * Views of a table of recipes that was costed *)

Module RecomputeViews.
Import Py Orm CostEngine.

(** A recipe that the loop body of [_compute_costs] returns as it is. *)
Definition settled (labor_rate energy_rate : float) (db : database)
    (r : Recipe.t) : Prop :=
  recipe_costs labor_rate energy_rate db r = Ok r.

(** Every recipe whose id is in [ids] is settled, and is the only record
    of the table under its id. *)
Definition settled_in (labor_rate energy_rate : float) (db : database)
    (ids : Z -> Prop) : Prop :=
  forall r, In r (recipe_recipe db) -> ids (Recipe.id r) ->
    settled labor_rate energy_rate db r
    /\ forall r2, In r2 (recipe_recipe db) ->
         Recipe.id r2 = Recipe.id r -> r2 = r.

(** The fields of a line other than its cost. *)
Definition entries (l : RecipeLine.t) : RecipeLine.t :=
  RecipeLine.set_cost 0%float l.

End RecomputeViews.

(** * Facts about the ORM operations *)

Module OrmFacts.
Import Orm.

Section Table.
Context {A : Type} `{Model A}.

Lemma browse_id (tbl : list A) (i : Z) (r : A) :
  browse tbl i = Some r -> id_of r = i.
Proof.
  unfold browse. intros Hfind.
  apply find_some in Hfind as [_ Heq]. lia.
Qed.


Lemma browse_write_other (tbl : list A) (i j : Z) (f : A -> A) :
  (forall r, id_of r = i -> id_of (f r) = i) ->
  i <> j ->
  browse (write tbl i f) j = browse tbl j.
Proof.
  intros Hid Hne. unfold browse, write.
  induction tbl as [|r tbl IH]; simpl; [done|].
  destruct (Z.eqb_spec (id_of r) i) as [Heq|Hneq].
  - rewrite (proj2 (Z.eqb_neq _ _)) by (rewrite (Hid r Heq); done).
    rewrite (proj2 (Z.eqb_neq _ _)) by (rewrite Heq; done).
    apply IH.
  - destruct (Z.eqb_spec (id_of r) j); [done|]. apply IH.
Qed.

Lemma next_id_fresh (tbl : list A) (r : A) :
  In r tbl -> id_of r < next_id tbl.
Proof.
  unfold next_id. induction tbl as [|a tbl IH]; simpl; [done|].
  intros [->|Hin]; [lia|]. specialize (IH Hin). lia.
Qed.

Lemma write_fresh (tbl : list A) (i : Z) (f : A -> A) :
  (forall r, In r tbl -> id_of r <> i) -> write tbl i f = tbl.
Proof.
  unfold write. induction tbl as [|a tbl IH]; simpl; intros Hne; [done|].
  rewrite (proj2 (Z.eqb_neq _ _)) by (apply Hne; by left).
  f_equal. apply IH. intros r Hr. apply Hne. by right.
Qed.



Section Search.
Variables (before : A -> A -> bool) (domain : A -> bool).

Lemma search_fold (tbl : list A) : forall best,
  (forall x, fold_left (search_step before domain) tbl best = Some x ->
     best = Some x \/ (In x tbl /\ domain x = true))
  /\ (fold_left (search_step before domain) tbl best = None ->
      best = None /\ forall r, In r tbl -> domain r = false)
  /\ ((forall r, In r tbl -> domain r = false) ->
      fold_left (search_step before domain) tbl best = best).
Proof.
  induction tbl as [|a tbl IH]; intros best; simpl.
  - split; [by left|]. split; [by split|done].
  - destruct (IH (search_step before domain best a)) as (Hsome & Hnone & Hmiss).
    split; [|split].
    + intros x Hx. destruct (Hsome x Hx) as [Hstep|[Hin Hdom]].
      * unfold search_step in Hstep. destruct (domain a) eqn:Ha; [|by left].
        destruct best as [b|].
        -- destruct (before a b); [|by left].
           right. split; [left|]; congruence.
        -- right. split; [left|]; congruence.
      * right. split; [by right|done].
    + intros Hres. destruct (Hnone Hres) as [Hstep Hall].
      unfold search_step in Hstep. destruct (domain a) eqn:Ha.
      * destruct best as [b|]; [destruct (before a b)|]; discriminate.
      * split; [done|]. intros r [->|Hr]; [done|by apply Hall].
    + intros Hall. rewrite Hmiss by (intros r Hr; apply Hall; by right).
      unfold search_step. by rewrite (Hall a) by (by left).
Qed.

(** What [search1] finds is a record of the table in the domain. *)
Lemma search1_Some (tbl : list A) (x : A) :
  search1 before domain tbl = Some x -> In x tbl /\ domain x = true.
Proof.
  intros Hx. destruct (search_fold tbl None) as (Hsome & _).
  destruct (Hsome x Hx) as [?|?]; [discriminate|done].
Qed.

(** It finds nothing exactly when no record is in the domain. *)
Lemma search1_None (tbl : list A) :
  search1 before domain tbl = None
  <-> forall r, In r tbl -> domain r = false.
Proof.
  destruct (search_fold tbl None) as (_ & Hnone & Hmiss). split.
  - intros Hres. by destruct (Hnone Hres).
  - exact Hmiss.
Qed.

End Search.

End Table.

End OrmFacts.

(** * The cost of a recipe line *)

Module LineCostFacts.
Import Py Orm OrmFacts CostEngine CostViews.

Section Host.
Variable _compute_quantity : Uom.t -> float -> Uom.t -> option float.


Lemma _compute_cost_cons db j self :
  _compute_cost _compute_quantity db (j :: self)
  = _compute_cost _compute_quantity
      match browse (recipe_recipe_line db) j with
      | Some line =>
          set_recipe_recipe_line
            (write (recipe_recipe_line db) j
               (RecipeLine.set_cost (line_cost _compute_quantity db line)))
            db
      | None => db
      end
      self.
Proof. reflexivity. Qed.

End Host.



(** C10. On a line with both an ingredient and a sub-recipe set and a
    truthy quantity, the cost is the one of the ingredient branch, and it
    is the same whatever the sub-recipe reference is. *)
Theorem ingredient_takes_precedence
    (_compute_quantity : Uom.t -> float -> Uom.t -> option float)
    (db : database) (line : RecipeLine.t) (ing : Ingredient.t)
    (sub : Recipe.t) :
  many2one (recipe_ingredient db) (RecipeLine.ingredient_id line) = Some ing ->
  many2one (recipe_recipe db) (RecipeLine.sub_recipe_id line) = Some sub ->
  bool_float (RecipeLine.quantity line) = true ->
  line_cost _compute_quantity db line
  = match many2one (uom_uom db) (RecipeLine.uom_id line),
          many2one (uom_uom db) (Ingredient.uom_id ing) with
    | Some line_uom, Some ingredient_uom =>
        match _compute_quantity line_uom (RecipeLine.quantity line)
                ingredient_uom with
        | Some qty => (qty * Ingredient.price ing)%float
        | None => (RecipeLine.quantity line * Ingredient.price ing)%float
        end
    | _, _ => (RecipeLine.quantity line * Ingredient.price ing)%float
    end
  /\ forall ref,
       line_cost _compute_quantity db (with_sub_recipe ref line)
       = line_cost _compute_quantity db line.
Proof.
  intros Hing Hsub Hq. unfold line_cost. simpl. rewrite Hing, Hq.
  split; reflexivity.
Qed.

(** The sample line with both references costs 3 times the price of
    flour, not 3 times the cost of the sauce. *)
Lemma ingredient_takes_precedence_witness :
  line_cost Sample.convert Sample.db Sample.both_line = 4.5%float
  /\ line_cost Sample.convert Sample.db
       (with_sub_recipe None Sample.both_line) = 4.5%float.
Proof.
  destruct (ingredient_takes_precedence Sample.convert Sample.db
              Sample.both_line Sample.flour Sample.sauce
              eq_refl eq_refl eq_refl) as [Hcost Hany].
  split.
  - rewrite Hcost. reflexivity.
  - rewrite (Hany None), Hcost. reflexivity.
Defined.

End LineCostFacts.

(** * The derived costs of a recipe *)

Module RecipeCostFacts.
Import Py Orm OrmFacts CostEngine CostViews.



(** The loop body never raises, and what it returns is costed. *)
Lemma recipe_costs_costed labor_rate energy_rate db r :
  exists r',
    recipe_costs labor_rate energy_rate db r = Ok r'
    /\ same_entries r r'
    /\ costed labor_rate energy_rate (recipe_recipe_line db) r'.
Proof.
  unfold recipe_costs, truediv, mapped_cost.
  destruct (Recipe.portions r =? 0) eqn:Hp; simpl;
    (eexists; split; [reflexivity|]);
    (split; [by repeat split|]);
    unfold costed; simpl; rewrite Hp; by repeat split.
Qed.

Lemma compute_costs_loop_cons labor_rate energy_rate db i rest :
  compute_costs_loop labor_rate energy_rate db (i :: rest)
  = match browse (recipe_recipe db) i with
    | Some recipe =>
        recipe' ← recipe_costs labor_rate energy_rate db recipe;
        compute_costs_loop labor_rate energy_rate
          (set_recipe_recipe
             (write (recipe_recipe db) i (fun _ => recipe')) db)
          rest
    | None => compute_costs_loop labor_rate energy_rate db rest
    end.
Proof. reflexivity. Qed.







End RecipeCostFacts.

(** * The importer, row by row *)

Module ImportFacts.
Import Py Orm OrmFacts IngredientImport ImportViews.


Lemma bool_str_true s : bool_str s = true <-> s <> "".
Proof. destruct s; simpl; split; congruence. Qed.

Lemma _get_or_create_category_tables db category_name :
  let db' := fst (_get_or_create_category db category_name) in
  recipe_ingredient db' = recipe_ingredient db
  /\ same_registry db db'.
Proof.
  unfold _get_or_create_category. repeat case_match; by simpl.
Qed.

Lemma _get_or_create_supplier_tables db supplier_name :
  let db' := fst (_get_or_create_supplier db supplier_name) in
  recipe_ingredient db' = recipe_ingredient db
  /\ same_registry db db'.
Proof.
  unfold _get_or_create_supplier. repeat case_match; by simpl.
Qed.

Lemma find_ingredient_ext db db' v :
  recipe_ingredient db' = recipe_ingredient db ->
  find_ingredient db' v = find_ingredient db v.
Proof.
  intros Heq. unfold find_ingredient, search_code, search_name.
  by rewrite Heq.
Qed.


Section Clock.
Variable today : date.

Lemma import_row_unfold st r :
  import_row today st r
  = match try_row today r (counted st) with
    | Ok st' => st'
    | Raise e =>
        append_error (row_message (row_num st + 1) (str_exn e)) (counted st)
    end.
Proof. reflexivity. Qed.

Lemma prepared_tables db0 v :
  let '(db2, category, supplier) := prepared db0 v in
  recipe_ingredient db2 = recipe_ingredient db0
  /\ same_registry db0 db2
  /\ (category_name v = "" -> category = None)
  /\ (supplier_name v = "" -> supplier = None).
Proof.
  unfold prepared.
  pose proof (_get_or_create_category_tables db0 (category_name v)) as Hc.
  destruct (bool_str (category_name v)) eqn:Hcn.
  - destruct (_get_or_create_category db0 (category_name v))
      as [db1 category]. simpl in Hc.
    pose proof (_get_or_create_supplier_tables db1 (supplier_name v)) as Hs.
    destruct (bool_str (supplier_name v)) eqn:Hsn.
    + destruct (_get_or_create_supplier db1 (supplier_name v))
        as [db2 supplier]. simpl in Hs.
      destruct Hc as (Hi & Hd & Hu), Hs as (Hi' & Hd' & Hu').
      split; [congruence|]. split; [split; congruence|].
      split; intros Hempty; apply bool_str_true in Hcn, Hsn; done.
    + destruct Hc as (Hi & Hd & Hu).
      split; [done|]. split; [by split|].
      split; [|done]. intros Hempty. by apply bool_str_true in Hcn.
  - pose proof (_get_or_create_supplier_tables db0 (supplier_name v)) as Hs.
    destruct (bool_str (supplier_name v)) eqn:Hsn.
    + destruct (_get_or_create_supplier db0 (supplier_name v))
        as [db2 supplier]. simpl in Hs.
      destruct Hs as (Hi' & Hd' & Hu').
      split; [done|]. split; [by split|].
      split; [done|]. intros Hempty. by apply bool_str_true in Hsn.
    + by repeat split.
Qed.

Lemma try_row_valid st r v price uom :
  read_row r = Ok v ->
  name v <> "" -> uom_name v <> "" ->
  float_of_str (replace "," "." (price_str v)) = Some price ->
  _get_uom (db st) (uom_name v) = Some uom ->
  try_row today r st = Ok (upsert today st v price uom).
Proof.
  intros Hread Hname Huom Hprice Hget. unfold try_row, upsert, prepared.
  rewrite Hread. simpl.
  apply bool_str_true in Hname, Huom. rewrite Hname, Huom. simpl.
  unfold to_float. rewrite Hprice, Hget.
  destruct (bool_str (category_name v));
    [destruct (_get_or_create_category _ _) as [db1 category]|];
    (destruct (bool_str (supplier_name v));
     [destruct (_get_or_create_supplier _ _) as [db2 supplier]|]);
    by destruct (find_ingredient _ v).
Qed.

(** A failing row leaves one message and nothing else. *)
Lemma import_row_failure st r text :
  failure (db st) r = Some text ->
  import_row today st r
  = append_error (row_message (row_num st + 1) text) (counted st).
Proof.
  unfold failure. intros Hfail. rewrite import_row_unfold. unfold try_row.
  destruct (read_row r) as [v|e]; simpl in *; [|congruence].
  destruct (bool_str (name v)); simpl in *; [|congruence].
  destruct (bool_str (uom_name v)); simpl in *; [|congruence].
  unfold to_float.
  destruct (float_of_str _) as [price|]; [|congruence].
  destruct (_get_uom (db st) (uom_name v)); [discriminate|congruence].
Qed.

(** A row that does not fail is upserted. *)
Lemma import_row_success st r :
  failure (db st) r = None ->
  exists v price uom,
    read_row r = Ok v
    /\ name v <> "" /\ uom_name v <> ""
    /\ float_of_str (replace "," "." (price_str v)) = Some price
    /\ _get_uom (db st) (uom_name v) = Some uom
    /\ import_row today st r = upsert today (counted st) v price uom.
Proof.
  unfold failure. intros Hfail.
  destruct (read_row r) as [v|e] eqn:Hread; [|discriminate].
  destruct (bool_str (name v)) eqn:Hname; [|discriminate].
  destruct (bool_str (uom_name v)) eqn:Huom; [|discriminate]. simpl in Hfail.
  destruct (float_of_str _) as [price|] eqn:Hprice; [|discriminate].
  destruct (_get_uom (db st) (uom_name v)) as [uom|] eqn:Hget;
    [|discriminate].
  apply bool_str_true in Hname, Huom.
  exists v, price, uom. repeat (split; [done|]).
  rewrite import_row_unfold.
  by rewrite (try_row_valid (counted st) r v price uom).
Qed.



Lemma upsert_registry st v price uom :
  same_registry (db st) (db (upsert today st v price uom)).
Proof.
  unfold upsert. pose proof (prepared_tables (db st) v) as Hp.
  destruct (prepared (db st) v) as [[db2 category] supplier].
  destruct Hp as (_ & Hreg & _).
  by destruct (find_ingredient db2 v).
Qed.






End Clock.

End ImportFacts.

(** * The batch: failures stay with their row *)

Module BatchFacts.
Import Py Orm OrmFacts IngredientImport ImportViews ImportFacts.



End BatchFacts.

(** * The report *)

Module ReportFacts.
Import Py Orm OrmFacts IngredientImport ImportViews ImportFacts.





End ReportFacts.

(** * The upsert of a valid row *)

Module UpsertFacts.
Import Py Orm OrmFacts IngredientImport ImportViews ImportFacts.

Section Clock.
Variable today : date.

Lemma upsert_spec st v price uom :
  let st' := upsert today st v price uom in
  errors st' = errors st
  /\ row_num st' = row_num st
  /\ same_registry (db st) (db st')
  /\ match find_ingredient (db st) v with
     | Some i => updates today st st' v price uom i
     | None => creates today st st' v price uom
     end.
Proof.
  simpl. pose proof (upsert_registry today st v price uom) as Hreg.
  unfold upsert in *.
  pose proof (prepared_tables (db st) v) as Hp.
  destruct (prepared (db st) v) as [[db2 category] supplier].
  destruct Hp as (Htable & _ & Hcat & Hsup).
  rewrite (find_ingredient_ext (db st) db2 v Htable) in Hreg |- *.
  assert (Hvals : row_vals today v price uom
            (prepare_vals v price uom category supplier
               (default today (_parse_date (date_str v))))).
  { unfold row_vals. simpl. repeat (split; [done|]). split.
    - intros Hempty. by rewrite (Hcat Hempty).
    - intros Hempty. by rewrite (Hsup Hempty). }
  destruct (find_ingredient (db st) v) as [i|]; simpl in *;
    (do 3 (split; [done|])); eexists; (split; [exact Hvals|]);
    simpl; rewrite Htable; by repeat split.
Qed.

(** A valid row is upserted in the database as the row finds it. *)
Lemma import_row_valid st r v price uom :
  read_row r = Ok v ->
  name v <> "" -> uom_name v <> "" ->
  float_of_str (replace "," "." (price_str v)) = Some price ->
  _get_uom (db st) (uom_name v) = Some uom ->
  let st' := import_row today st r in
  errors st' = errors st
  /\ same_registry (db st) (db st')
  /\ match find_ingredient (db st) v with
     | Some i => updates today st st' v price uom i
     | None => creates today st st' v price uom
     end.
Proof.
  intros Hread Hname Huom Hprice Hget. simpl.
  rewrite import_row_unfold.
  rewrite (try_row_valid today (counted st) r v price uom) by done.
  destruct (upsert_spec (counted st) v price uom)
    as (Herr & _ & Hreg & Hcase).
  split; [done|]. split; [done|]. exact Hcase.
Qed.

Lemma search_code_Some db0 c i :
  search_code db0 c = Some i ->
  In i (recipe_ingredient db0) /\ Ingredient.code i = Some c.
Proof.
  intros Hfound. apply search1_Some in Hfound as [Hin Hdom].
  split; [done|]. by apply bool_decide_eq_true in Hdom.
Qed.




End Clock.



End UpsertFacts.

(** * The price of a row *)

Module PriceFacts.
Import Py Orm OrmFacts IngredientImport ImportViews ImportFacts UpsertFacts.




End PriceFacts.

(** * The unit of a row *)

Module UnitFacts.
Import Py Orm OrmFacts IngredientImport ImportViews ImportFacts.






End UnitFacts.

(** * The fields an update leaves alone *)

Module FrameFacts.
Import Py Orm OrmFacts IngredientImport ImportViews ImportFacts UpsertFacts PriceFacts.




End FrameFacts.

(** * Runs of the definitions *)

Module Runs.
Import Py Orm Strptime CostEngine IngredientImport.

Example float_texts :
  map float_of_str
    ["12.50"; " 1_0.5e1 "; "0"; "-.5"; "5."; "+Infinity"; "1e400";
     "abc"; ""; "."; "1e"; "1__0"; "1.2.3"; "12,50"]
  = [Some 12.5; Some 105; Some 0; Some (-0.5); Some 5; Some infinity;
     Some infinity; None; None; None; None; None; None; None]%float.
Proof. reflexivity. Qed.

Example strip_lower_texts :
  (strip "  a b  ", strip (lower " Kg "), replace "," "." "1,234,5",
   str_int 12, join nl ["a"; "b"])
  = ("a b", "kg", "1.234.5", "12", "a" +:+ nl +:+ "b").
Proof. reflexivity. Qed.

Example dates :
  map _parse_date
    ["2024-02-29"; "2023-02-29"; "1/2/2024"; "12/31/2024"; "31-12-2024";
     "2024/10/05"; "2024-1-5x"; ""]
  = [Some {| year := 2024; month := 2; day := 29 |}; None;
     Some {| year := 2024; month := 2; day := 1 |};
     Some {| year := 2024; month := 12; day := 31 |};
     Some {| year := 2024; month := 12; day := 31 |};
     Some {| year := 2024; month := 10; day := 5 |}; None; None].
Proof. reflexivity. Qed.

(** The costs of the five sample lines, and of a falsy quantity. *)
Example sample_line_costs :
  map (line_cost Sample.convert Sample.db) (recipe_recipe_line Sample.db)
  = [0.75; 5; 4.5; 0; 3]%float.
Proof. reflexivity. Qed.

(** Dividing by no portions would raise; a rate that is no number does. *)
Example division_by_zero :
  truediv 12%float 0 = Raise (ZeroDivisionError "float division by zero").
Proof. reflexivity. Qed.

Example bad_rate_raises :
  _compute_costs Sample.db_with_bad_rate [1]
  = Raise (ValueError "could not convert string to float: 'ten'").
Proof. reflexivity. Qed.

(** The header [name,price,uom] and the row [Flour,1.20,kg]: one
    ingredient is created, with the kilogram as its unit. *)
Example flour_file :
  action_import Sample.today Sample.db_without_ingredients
    (Some [["name"; "price"; "uom"]; ["Flour"; "1.20"; "kg"]])
  = Ok (set_recipe_ingredient
          [{| Ingredient.id := 1; Ingredient.name := "Flour";
              Ingredient.code := None; Ingredient.category_id := None;
              Ingredient.uom_id := Some 12; Ingredient.price := 1.2;
              Ingredient.price_date := Some Sample.today;
              Ingredient.supplier_id := None; Ingredient.active := true;
              Ingredient.notes := None |}]
          Sample.db_without_ingredients,
        join nl ["Import completed!"; "Created: 1"; "Updated: 0"]).
Proof. reflexivity. Qed.

(** A blank record is skipped without being counted; a short record, a
    bad price and an unknown unit each leave their message. *)
Example failing_rows :
  (db_report ← action_import Sample.today Sample.db_without_ingredients
     (Some [["Code"; " Name "; "PRICE"; "unit"];
            []; ["P1"; "Pepper"];
            [""; "Pepper"; "1,234.5"; "g"];
            [""; "Pepper"; "3"; "stone"];
            [""; "Pepper"; "3"; "G"]]);
   Ok (snd db_report))
  = Ok (join nl
          ["Import completed!"; "Created: 1"; "Updated: 0";
           nl +:+ "Errors (3):";
           "Row 2: 'NoneType' object has no attribute 'strip'";
           "Row 3: Invalid price '1,234.5'";
           "Row 4: Unknown UoM 'stone'"]).
Proof. reflexivity. Qed.

Example short_row_raises :
  read_row Sample.short_row
  = Raise (AttributeError "'NoneType' object has no attribute 'strip'")
  /\ exists text,
       float_of_str (replace "," "." "1,234.5") = None
       /\ ImportViews.failure Sample.db Sample.bad_price_row = Some text.
Proof. split; [reflexivity|]. eexists. split; reflexivity. Qed.

End Runs.

(** * The bookkeeping of the importer *)

Module BookkeepingFacts.
Import Py Orm OrmFacts IngredientImport ImportViews ImportFacts UpsertFacts.
Import MoreViews.

Lemma write_same_length {A : Type} `{Model A} (tbl : list A) (i : Z)
    (f : A -> A) :
  length (write tbl i f) = length tbl.
Proof. unfold write. apply length_map. Qed.

(** One row: one more ingredient and creation, or one more update, or one
    more message. *)
Lemma import_row_counts today st r :
  let st' := import_row today st r in
  (created st' = created st + 1
   /\ updated st' = updated st
   /\ errors st' = errors st
   /\ length (recipe_ingredient (db st'))
      = S (length (recipe_ingredient (db st))))
  \/ (created st' = created st
      /\ updated st' = updated st + 1
      /\ errors st' = errors st
      /\ length (recipe_ingredient (db st'))
         = length (recipe_ingredient (db st)))
  \/ (created st' = created st
      /\ updated st' = updated st
      /\ length (errors st') = S (length (errors st))
      /\ db st' = db st).
Proof.
  simpl. destruct (failure (db st) r) as [text|] eqn:Hfail.
  - right. right. rewrite (import_row_failure today st r text Hfail).
    simpl. rewrite length_app. simpl. repeat split; lia.
  - destruct (import_row_success today st r Hfail)
      as (v & price & uom & Hread & Hname & Huom & Hprice & Hget & _).
    destruct (import_row_valid today st r v price uom)
      as (Herr & _ & Hcase); try done.
    destruct (find_ingredient (db st) v) as [i|].
    + right. left. destruct Hcase as (vals & _ & Htable & Hu & Hc).
      rewrite Htable, write_same_length. done.
    + left. destruct Hcase as (vals & _ & Htable & Hc & Hu).
      rewrite Htable, length_app. simpl. repeat split; try done. lia.
Qed.

Lemma import_rows_counts today rows : forall st,
  let st' := import_rows today rows st in
  created st' + updated st' + Z.of_nat (length (errors st'))
  = created st + updated st + Z.of_nat (length (errors st))
    + Z.of_nat (length rows)
  /\ created st <= created st'
  /\ updated st <= updated st'
  /\ Z.of_nat (length (recipe_ingredient (db st')))
     = Z.of_nat (length (recipe_ingredient (db st)))
       + (created st' - created st).
Proof.
  induction rows as [|r rows IH]; intros st; simpl; [lia|].
  destruct (IH (import_row today st r)) as (Hsum & Hc & Hu & Hlen).
  simpl in *.
  destruct (import_row_counts today st r)
    as [(Hc1 & Hu1 & He1 & Hl1)|[(Hc1 & Hu1 & He1 & Hl1)
                                |(Hc1 & Hu1 & He1 & Hl1)]];
    simpl in *; rewrite ?Hc1, ?Hu1, ?He1, ?Hl1 in *; lia.
Qed.

(** X1. Every row is accounted for once: the created, the updated and the
    failed rows add up to the rows read, and the ingredients grow by the
    rows counted as created. *)
Theorem import_accounts_for_every_row (today : date) (db0 : database)
    (rows : list row) :
  let st := import_rows today rows (initial db0) in
  created st + updated st + Z.of_nat (length (errors st))
  = Z.of_nat (length rows)
  /\ 0 <= created st
  /\ 0 <= updated st
  /\ Z.of_nat (length (recipe_ingredient (db st)))
     = Z.of_nat (length (recipe_ingredient db0)) + created st.
Proof.
  simpl. destruct (import_rows_counts today rows (initial db0))
    as (Hsum & Hc & Hu & Hlen). simpl in *. lia.
Qed.





End BookkeepingFacts.

(** * What the importer keeps *)

Module IntegrityFacts.
Import Py Orm OrmFacts IngredientImport ImportViews ImportFacts UpsertFacts.
Import MoreViews.

Lemma map_write {A B : Type} `{Model A} (g : A -> B) (tbl : list A) (j : Z)
    (f : A -> A) :
  (forall r, In r tbl -> id_of r = j -> g (f r) = g r) ->
  map g (write tbl j f) = map g tbl.
Proof.
  unfold write. induction tbl as [|a tbl IH]; intros Hg; simpl; [done|].
  rewrite IH by (intros r Hr; apply Hg; by right). f_equal.
  destruct (Z.eqb_spec (id_of a) j) as [Heq|]; [|done].
  apply Hg; [by left|done].
Qed.

Lemma omap_write {A B : Type} `{Model A} (g : A -> option B) (tbl : list A)
    (j : Z) (f : A -> A) :
  (forall r, In r tbl -> id_of r = j -> g (f r) = g r) ->
  omap g (write tbl j f) = omap g tbl.
Proof.
  unfold write. induction tbl as [|a tbl IH]; intros Hg; [done|].
  change (a :: tbl) with ([a] ++ tbl)%list.
  rewrite map_app, !omap_app.
  rewrite IH by (intros r Hr; apply Hg; by right). f_equal. simpl.
  destruct (Z.eqb_spec (id_of a) j) as [Heq|]; [|done].
  by rewrite Hg by (by left || done).
Qed.

(** One row keeps the id, the [active] flag and the notes of every
    ingredient, and adds at most one active ingredient without notes. *)
Lemma import_row_kept today st r :
  exists added,
    map kept_fields (recipe_ingredient (db (import_row today st r)))
    = (map kept_fields (recipe_ingredient (db st)) ++ added)%list
    /\ Forall (fun k => k.1.2 = true /\ k.2 = None) added.
Proof.
  destruct (failure (db st) r) as [text|] eqn:Hfail.
  - rewrite (import_row_failure today st r text Hfail). simpl.
    exists []. by rewrite app_nil_r.
  - destruct (import_row_success today st r Hfail)
      as (v & price & uom & Hread & Hname & Huom & Hprice & Hget & _).
    destruct (import_row_valid today st r v price uom)
      as (_ & _ & Hcase); try done.
    destruct (find_ingredient (db st) v) as [i|].
    + destruct Hcase as (vals & _ & -> & _). exists [].
      rewrite app_nil_r. split; [by apply map_write|done].
    + destruct Hcase as (vals & _ & -> & _).
      eexists. rewrite map_app. split; [reflexivity|].
      by repeat constructor.
Qed.

(** X3. The import deletes no ingredient and never touches [active] or
    [notes]: the ingredients there before keep their place, their id,
    their flag and their notes, and those added are active and without
    notes. *)
Theorem import_keeps_records (today : date) (rows : list row) :
  forall st,
  exists added,
    map kept_fields (recipe_ingredient (db (import_rows today rows st)))
    = (map kept_fields (recipe_ingredient (db st)) ++ added)%list
    /\ Forall (fun k => k.1.2 = true /\ k.2 = None) added.
Proof.
  induction rows as [|r rows IH]; intros st; simpl.
  - exists []. by rewrite app_nil_r.
  - destruct (IH (import_row today st r)) as (added2 & -> & Hall2).
    destruct (import_row_kept today st r) as (added1 & -> & Hall1).
    exists (added1 ++ added2)%list. rewrite <- app_assoc.
    split; [done|]. by apply Forall_app.
Qed.

Lemma omap_code_cons (a : Ingredient.t) (tbl : list Ingredient.t) :
  omap Ingredient.code (a :: tbl)
  = (match Ingredient.code a with Some c => [c] | None => [] end
     ++ omap Ingredient.code tbl)%list.
Proof.
  change (a :: tbl) with ([a] ++ tbl)%list. rewrite omap_app.
  simpl. by destruct (Ingredient.code a).
Qed.

Lemma unique_id_record (tbl : list Ingredient.t) (r i : Ingredient.t) :
  NoDup (map Ingredient.id tbl) ->
  In r tbl -> In i tbl -> Ingredient.id r = Ingredient.id i -> r = i.
Proof.
  induction tbl as [|a tbl IH]; simpl; intros Hnodup Hr Hi Heq; [done|].
  apply NoDup_cons in Hnodup as [Hfresh Hnodup].
  assert (Hin : forall x, In x tbl -> Ingredient.id x <> Ingredient.id a).
  { intros x Hx Hid. apply Hfresh. rewrite <- Hid.
    apply list_elem_of_In, in_map, Hx. }
  destruct Hr as [->|Hr], Hi as [->|Hi]; [done| | |by apply IH].
  - by destruct (Hin i Hi).
  - by destruct (Hin r Hr).
Qed.

Lemma codes_of_write (tbl : list Ingredient.t) (j : Z)
    (f : Ingredient.t -> Ingredient.t) (c y : string) :
  (forall r, Ingredient.code (f r) = Some c) ->
  y ∈ omap Ingredient.code (write tbl j f) ->
  y = c \/ y ∈ omap Ingredient.code tbl.
Proof.
  intros Hf Hy. apply list_elem_of_omap in Hy as (x & Hx & Hcode).
  unfold write in Hx. apply list_elem_of_In, in_map_iff in Hx
    as (r & <- & Hr).
  destruct (id_of r =? j).
  - left. rewrite Hf in Hcode. congruence.
  - right. apply list_elem_of_omap. exists r.
    split; [by apply list_elem_of_In|done].
Qed.

(** Writing a code that no record bears keeps the codes apart. *)
Lemma codes_write_new (tbl : list Ingredient.t) (j : Z)
    (f : Ingredient.t -> Ingredient.t) (c : string) :
  (forall r, Ingredient.code (f r) = Some c) ->
  NoDup (map Ingredient.id tbl) ->
  NoDup (omap Ingredient.code tbl) ->
  c ∉ omap Ingredient.code tbl ->
  NoDup (omap Ingredient.code (write tbl j f)).
Proof.
  intros Hf. induction tbl as [|a tbl IH]; intros Hids Hcodes Hc;
    [constructor|].
  apply NoDup_cons in Hids as [Hfresh Hids].
  rewrite omap_code_cons in Hcodes, Hc.
  apply NoDup_app in Hcodes as (_ & Hapart & Hcodes).
  apply not_elem_of_app in Hc as [Hca Hc].
  change (write (a :: tbl) j f)
    with ((if id_of a =? j then f a else a) :: write tbl j f).
  rewrite omap_code_cons.
  destruct (Z.eqb_spec (id_of a) j) as [Heq|Hne].
  - rewrite Hf. rewrite write_fresh.
    + apply NoDup_cons. by split.
    + intros r Hr Hid. apply Hfresh.
      change (Ingredient.id a) with (id_of a). rewrite Heq, <- Hid.
      apply list_elem_of_In, in_map, Hr.
  - apply NoDup_app. split; [|split; [|by apply IH]].
    + destruct (Ingredient.code a); [apply NoDup_singleton|constructor].
    + intros x Hx Hx'.
      destruct (codes_of_write tbl j f c x Hf Hx') as [->|Hin].
      * done.
      * by apply (Hapart x).
Qed.

Lemma search_code_None db0 c :
  search_code db0 c = None -> c ∉ omap Ingredient.code (recipe_ingredient db0).
Proof.
  intros Hnone Hin. apply list_elem_of_omap in Hin as (r & Hr & Hcode).
  unfold search_code in Hnone.
  rewrite search1_None in Hnone.
  specialize (Hnone r (proj1 (list_elem_of_In _ _) Hr)).
  by apply bool_decide_eq_false in Hnone.
Qed.

Lemma import_row_unique today st r :
  unique_keys (recipe_ingredient (db st)) ->
  unique_keys (recipe_ingredient (db (import_row today st r))).
Proof.
  intros [Hids Hcodes].
  destruct (failure (db st) r) as [text|] eqn:Hfail.
  { by rewrite (import_row_failure today st r text Hfail). }
  destruct (import_row_success today st r Hfail)
    as (v & price & uom & Hread & Hname & Huom & Hprice & Hget & _).
  destruct (import_row_valid today st r v price uom)
    as (_ & _ & Hcase); try done.
  destruct (find_ingredient (db st) v) as [i|] eqn:Hfind.
  - destruct Hcase as (vals & (_ & _ & _ & _ & Hcode & _) & -> & _).
    split; [by rewrite map_write|].
    unfold find_ingredient in Hfind.
    destruct (bool_str (code v)) eqn:Hb.
    + destruct (search_code (db st) (code v)) as [j|] eqn:Hj.
      * injection Hfind as ->.
        apply search_code_Some in Hj as [Hin Hci].
        rewrite omap_write; [done|]. intros x Hx Hid. simpl.
        rewrite Hcode.
        by rewrite (unique_id_record _ x i Hids Hx Hin Hid).
      * apply (codes_write_new _ _ _ (code v)); try done.
        -- intros x. simpl. by rewrite Hcode.
        -- by apply search_code_None.
    + rewrite omap_write; [done|]. intros x _ _. simpl. by rewrite Hcode.
  - destruct Hcase as (vals & (_ & _ & _ & _ & Hcode & _) & -> & _).
    split.
    + rewrite map_app. apply NoDup_app. split; [done|].
      split; [|apply NoDup_singleton].
      intros x Hx Hx'. simpl in Hx'. apply list_elem_of_singleton in Hx'.
      apply list_elem_of_In, in_map_iff in Hx as (y & <- & Hy).
      apply next_id_fresh in Hy.
      change (id_of y) with (Ingredient.id y) in Hy. lia.
    + rewrite omap_app. apply NoDup_app. split; [done|]. simpl.
      rewrite Hcode. unfold find_ingredient in Hfind.
      destruct (bool_str (code v)); simpl.
      * split; [|apply NoDup_singleton].
        intros x Hx Hx'. apply list_elem_of_singleton in Hx' as ->.
        destruct (search_code (db st) (code v)) eqn:Hj; [done|].
        by apply (search_code_None (db st) (code v)).
      * split; [|constructor]. intros x _ Hx'. by inversion Hx'.
Qed.

Lemma import_row_no_archived today st r :
  no_archived (recipe_ingredient (db st)) ->
  no_archived (recipe_ingredient (db (import_row today st r))).
Proof.
  unfold no_archived. intros Hactive.
  destruct (import_row_kept today st r) as (added & Heq & Hadded).
  assert (Hall : Forall (fun k : Z * bool * option string => k.1.2 = true)
                   (map kept_fields
                      (recipe_ingredient (db (import_row today st r))))).
  { rewrite Heq. apply Forall_app. split.
    - apply Forall_map. eapply Forall_impl; [exact Hactive|done].
    - eapply Forall_impl; [exact Hadded|]. by intros k [? _]. }
  apply Forall_map in Hall. eapply Forall_impl; [exact Hall|done].
Qed.

(** X4. The import keeps the keys of the ingredients apart: on a table
    without archived ingredients where no two share an id or a code
    before the run, none is archived and no two share an id or a code
    after it. *)
Theorem import_keeps_keys_unique (today : date) (rows : list row)
    (st : state) :
  no_archived (recipe_ingredient (db st)) ->
  unique_keys (recipe_ingredient (db st)) ->
  no_archived (recipe_ingredient (db (import_rows today rows st)))
  /\ unique_keys (recipe_ingredient (db (import_rows today rows st))).
Proof.
  revert st. induction rows as [|r rows IH]; intros st Hactive Hunique;
    simpl; [done|].
  apply IH; [by apply import_row_no_archived|by apply import_row_unique].
Qed.

(** Two rows with the code "S1" on the sample database. *)
Lemma import_keeps_keys_unique_witness :
  let after :=
    recipe_ingredient
      (db (import_rows Sample.today
             [Sample.sugar_row; Sample.cane_sugar_row; Sample.flour_row]
             (initial Sample.db))) in
  no_archived after /\ unique_keys after.
Proof.
  apply import_keeps_keys_unique; simpl.
  - by repeat constructor.
  - split; apply NoDup_singleton.
Defined.

(** ** References *)

Lemma browse_In {A : Type} `{Model A} (tbl : list A) (r : A) :
  In r tbl -> is_Some (browse tbl (id_of r)).
Proof.
  intros Hin. unfold browse.
  destruct (List.find _ tbl) as [x|] eqn:Hfind; [by exists x|].
  pose proof (find_none _ _ Hfind r Hin) as Hr. simpl in Hr. lia.
Qed.

Lemma browse_Some_In {A : Type} `{Model A} (tbl : list A) (i : Z) (r : A) :
  browse tbl i = Some r -> In r tbl.
Proof. intros Hfind. by apply find_some in Hfind as [Hin _]. Qed.

Lemma resolves_app {A : Type} `{Model A} (tbl tbl' : list A)
    (ref : option Z) :
  resolves tbl ref -> resolves (tbl ++ tbl') ref.
Proof.
  destruct ref as [i|]; simpl; [|done]. intros [r Hr].
  apply browse_Some_In in Hr as Hin. apply browse_id in Hr as <-.
  apply browse_In, in_or_app. by left.
Qed.

Lemma _get_uom_In db0 nm u :
  _get_uom db0 nm = Some u -> In u (uom_uom db0).
Proof.
  unfold _get_uom. destruct (bool_str nm); [|done].
  destruct (UOM_MAPPING !! strip (lower nm) ≫= env_ref db0) as [u'|] eqn:Href.
  - intros [= ->]. apply bind_Some in Href as (xmlid & _ & Href).
    unfold env_ref in Href. apply bind_Some in Href as (i & _ & Hb).
    by apply browse_Some_In in Hb.
  - intros Hsearch. by apply search1_Some in Hsearch as [Hin _].
Qed.

Lemma _get_or_create_category_refs db0 nm :
  let '(db1, category) := _get_or_create_category db0 nm in
  uom_uom db1 = uom_uom db0
  /\ res_partner db1 = res_partner db0
  /\ recipe_ingredient db1 = recipe_ingredient db0
  /\ (exists added,
        recipe_ingredient_category db1
        = (recipe_ingredient_category db0 ++ added)%list)
  /\ resolves (recipe_ingredient_category db1)
        (IngredientCategory.id <$> category).
Proof.
  unfold _get_or_create_category. destruct (bool_str nm).
  - destruct (search1 _ _ _) as [found|] eqn:Hsearch.
    + repeat (split; [done|]). split.
      * exists []. by rewrite app_nil_r.
      * apply search1_Some in Hsearch as [Hin _]. by apply browse_In.
    + simpl. repeat (split; [done|]). split; [by eexists|].
      match goal with
      | |- is_Some (browse (?tbl ++ [?c]) _) =>
          assert (Hin : In c (tbl ++ [c])%list)
            by (apply in_or_app; right; by left);
          exact (browse_In (tbl ++ [c]) c Hin)
      end.
  - repeat (split; [done|]). split; [|done].
    exists []. by rewrite app_nil_r.
Qed.

Lemma _get_or_create_supplier_refs db0 nm :
  let '(db1, supplier) := _get_or_create_supplier db0 nm in
  uom_uom db1 = uom_uom db0
  /\ recipe_ingredient_category db1 = recipe_ingredient_category db0
  /\ recipe_ingredient db1 = recipe_ingredient db0
  /\ (exists added, res_partner db1 = (res_partner db0 ++ added)%list)
  /\ resolves (res_partner db1) (Partner.id <$> supplier).
Proof.
  unfold _get_or_create_supplier. destruct (bool_str nm).
  - destruct (search1 _ _ _) as [found|] eqn:Hsearch.
    + repeat (split; [done|]). split.
      * exists []. by rewrite app_nil_r.
      * apply search1_Some in Hsearch as [Hin _]. by apply browse_In.
    + simpl. repeat (split; [done|]). split; [by eexists|].
      match goal with
      | |- is_Some (browse (?tbl ++ [?c]) _) =>
          assert (Hin : In c (tbl ++ [c])%list)
            by (apply in_or_app; right; by left);
          exact (browse_In (tbl ++ [c]) c Hin)
      end.
  - repeat (split; [done|]). split; [|done].
    exists []. by rewrite app_nil_r.
Qed.

Lemma prepared_refs db0 v :
  let '(db2, category, supplier) := prepared db0 v in
  uom_uom db2 = uom_uom db0
  /\ recipe_ingredient db2 = recipe_ingredient db0
  /\ (exists added,
        recipe_ingredient_category db2
        = (recipe_ingredient_category db0 ++ added)%list)
  /\ (exists added, res_partner db2 = (res_partner db0 ++ added)%list)
  /\ resolves (recipe_ingredient_category db2)
        (IngredientCategory.id <$> category)
  /\ resolves (res_partner db2) (Partner.id <$> supplier).
Proof.
  unfold prepared.
  assert (Hc : let '(db1, category) :=
                 if bool_str (category_name v)
                 then _get_or_create_category db0 (category_name v)
                 else (db0, None) in
               uom_uom db1 = uom_uom db0
               /\ res_partner db1 = res_partner db0
               /\ recipe_ingredient db1 = recipe_ingredient db0
               /\ (exists added,
                     recipe_ingredient_category db1
                     = (recipe_ingredient_category db0 ++ added)%list)
               /\ resolves (recipe_ingredient_category db1)
                     (IngredientCategory.id <$> category)).
  { destruct (bool_str (category_name v)).
    - apply _get_or_create_category_refs.
    - repeat (split; [done|]). split; [|done].
      exists []. by rewrite app_nil_r. }
  destruct (if bool_str (category_name v) then _ else _) as [db1 category].
  destruct Hc as (Hu & Hp & Hi & Hcs & Hcat).
  assert (Hs : let '(db2, supplier) :=
                 if bool_str (supplier_name v)
                 then _get_or_create_supplier db1 (supplier_name v)
                 else (db1, None) in
               uom_uom db2 = uom_uom db1
               /\ recipe_ingredient_category db2
                  = recipe_ingredient_category db1
               /\ recipe_ingredient db2 = recipe_ingredient db1
               /\ (exists added,
                     res_partner db2 = (res_partner db1 ++ added)%list)
               /\ resolves (res_partner db2) (Partner.id <$> supplier)).
  { destruct (bool_str (supplier_name v)).
    - apply _get_or_create_supplier_refs.
    - repeat (split; [done|]). split; [|done].
      exists []. by rewrite app_nil_r. }
  destruct (if bool_str (supplier_name v) then _ else _) as [db2 supplier].
  destruct Hs as (Hu' & Hc' & Hi' & Hps & Hsup).
  split; [congruence|]. split; [congruence|].
  split; [by rewrite Hc'|]. split; [by rewrite <- Hp|].
  split; [by rewrite Hc'|done].
Qed.

Lemma upsert_referenced today st v price uom :
  _get_uom (db st) (uom_name v) = Some uom ->
  well_referenced (db st) ->
  well_referenced (db (upsert today st v price uom)).
Proof.
  intros Hget Hwell. unfold upsert.
  pose proof (prepared_refs (db st) v) as Hp.
  destruct (prepared (db st) v) as [[db2 category] supplier].
  destruct Hp as (Hu & Hi & [cs Hcs] & [ps Hps] & Hcat & Hsup).
  set (vals := prepare_vals v price uom category supplier _).
  assert (Huom : resolves (uom_uom db2) (Some (Uom.id uom))).
  { rewrite Hu. apply (browse_In (uom_uom (db st)) uom).
    by apply _get_uom_In in Hget. }
  assert (Hold : Forall
            (fun i =>
               resolves (uom_uom db2) (Ingredient.uom_id i)
               /\ resolves (recipe_ingredient_category db2)
                    (Ingredient.category_id i)
               /\ resolves (res_partner db2) (Ingredient.supplier_id i))
            (recipe_ingredient db2)).
  { rewrite Hi, Hu, Hcs, Hps. unfold well_referenced in Hwell.
    eapply Forall_impl; [exact Hwell|]. simpl.
    intros i (H1 & H2 & H3).
    split; [done|]. split; by apply resolves_app. }
  assert (Hnew : forall i,
            resolves (uom_uom db2) (Ingredient.uom_id i)
            /\ resolves (recipe_ingredient_category db2)
                 (Ingredient.category_id i)
            /\ resolves (res_partner db2) (Ingredient.supplier_id i) ->
            resolves (uom_uom db2) (Ingredient.uom_id (write_vals vals i))
            /\ resolves (recipe_ingredient_category db2)
                 (Ingredient.category_id (write_vals vals i))
            /\ resolves (res_partner db2)
                 (Ingredient.supplier_id (write_vals vals i))).
  { intros i (H1 & H2 & H3). simpl. split; [done|]. split.
    - destruct category; simpl in *; done.
    - destruct supplier; simpl in *; done. }
  destruct (find_ingredient db2 v) as [found|]; unfold well_referenced; simpl.
  - unfold write. apply Forall_forall. intros x Hx.
    apply list_elem_of_In, in_map_iff in Hx as (y & <- & Hy).
    rewrite Forall_forall in Hold.
    specialize (Hold y (proj2 (list_elem_of_In _ _) Hy)).
    destruct (id_of y =? Ingredient.id found); [by apply Hnew|done].
  - apply Forall_app. split; [done|].
    apply Forall_singleton, Hnew. simpl. done.
Qed.

Lemma import_row_referenced today st r :
  well_referenced (db st) -> well_referenced (db (import_row today st r)).
Proof.
  intros Hwell.
  destruct (failure (db st) r) as [text|] eqn:Hfail.
  { by rewrite (import_row_failure today st r text Hfail). }
  destruct (import_row_success today st r Hfail)
    as (v & price & uom & _ & _ & _ & _ & Hget & ->).
  by apply upsert_referenced.
Qed.

(** X5. The import leaves no dangling reference: where every ingredient
    refers to a unit, a category and a supplier that exist before the
    run, every ingredient does after it, those created and those
    updated included. *)
Theorem import_keeps_references (today : date) (rows : list row)
    (st : state) :
  well_referenced (db st) ->
  well_referenced (db (import_rows today rows st)).
Proof.
  revert st. induction rows as [|r rows IH]; intros st Hwell; simpl;
    [done|].
  by apply IH, import_row_referenced.
Qed.

(** A row that names a category and a supplier unknown so far, and a
    row that updates it, on the sample database. *)
Lemma import_keeps_references_witness :
  well_referenced
    (db (import_rows Sample.today
           [ {[ "name" := Some "Butter"; "price" := Some "3";
                "uom" := Some "kg"; "category" := Some "Dairy";
                "supplier" := Some "Molino SA" ]};
             {[ "name" := Some "butter"; "price" := Some "4";
                "unit" := Some "g" ]} ]
           (initial Sample.db))).
Proof.
  apply import_keeps_references.
  unfold well_referenced. simpl.
  repeat constructor; simpl; try done; by eexists.
Defined.

End IntegrityFacts.

(** * Looking a category or a supplier up, or creating it *)

Module LookupFacts.
Import Py Orm OrmFacts IngredientImport ImportViews ImportFacts.

Lemma search1_ext {A : Type} (before : A -> A -> bool)
    (domain domain' : A -> bool) (tbl : list A) :
  (forall r, domain r = domain' r) ->
  search1 before domain tbl = search1 before domain' tbl.
Proof.
  intros Hext. unfold search1. generalize (@None A).
  induction tbl as [|a tbl IH]; intros best; simpl; [done|].
  rewrite IH. f_equal. unfold search_step. by rewrite Hext.
Qed.

Lemma ilike_ext (p p' : string) :
  lower p' = lower p -> forall v, ilike p' v = ilike p v.
Proof. intros Heq v. unfold ilike. by rewrite Heq. Qed.







Lemma bool_str_lower (s : string) : bool_str (lower s) = bool_str s.
Proof. by destruct s. Qed.

(** X8. The case of the letters of a unit name does not matter to
    [_get_uom]: two names equal up to case resolve to the same unit, or
    both to none. *)
Theorem unit_lookup_ignores_case (db : database) (name name' : string) :
  lower name' = lower name ->
  _get_uom db name' = _get_uom db name.
Proof.
  intros Heq. unfold _get_uom.
  rewrite <- (bool_str_lower name'), <- (bool_str_lower name), Heq.
  destruct (bool_str (lower name)); [|done].
  unfold search_uom.
  by rewrite (search1_ext table_order
                (fun u => ilike name' (Uom.name u))
                (fun u => ilike name (Uom.name u)))
    by (intros u; by apply ilike_ext).
Qed.

(** "KILOGRAM" and "Kilogram" on the sample database, and a name only
    the table of units knows. *)
Lemma unit_lookup_ignores_case_witness :
  _get_uom Sample.db "KILOGRAM" = _get_uom Sample.db "Kilogram"
  /\ _get_uom Sample.db "UNITS" = Some Sample.units.
Proof.
  split.
  - by apply unit_lookup_ignores_case.
  - reflexivity.
Defined.

End LookupFacts.

(** * Reading a row, and a file without rows *)

Module RowFacts.
Import Py Orm IngredientImport ImportViews ImportFacts.

Lemma read_row_uom r v :
  read_row r = Ok v ->
  exists raw,
    row_get r "uom" (row_get r "unit" (Some "")) = Some raw
    /\ uom_name v = strip raw.
Proof.
  unfold read_row. intros Hread.
  destruct (strip_value (row_get r "code" _)); [|done].
  destruct (strip_value (row_get r "name" _)); [|done].
  destruct (strip_value (row_get r "category" _)); [|done].
  destruct (strip_value (row_get r "price" _)); [|done]. simpl in Hread.
  destruct (row_get r "uom" _) as [raw|]; [|done]. simpl in Hread.
  destruct (strip_value (row_get r "supplier" _)); [|done].
  destruct (strip_value (row_get r "date" _)); [|done]. simpl in Hread.
  exists raw. split; [done|]. by injection Hread as <-.
Qed.

(** X9. The unit of a row is read from the column [uom] whenever the file
    has one, even where its cell is empty: the column [unit] counts only
    in a file without a column [uom].  A row whose [uom] cell is blank
    is therefore rejected for its missing unit, whatever its [unit] cell
    holds. *)
Theorem uom_column_hides_unit (db0 : database) (r : row) (v : row_values) :
  read_row r = Ok v ->
  (forall cell, r !! "uom" = Some (Some cell) ->
     uom_name v = strip cell
     /\ (name v <> "" -> strip cell = "" ->
         failure db0 r = Some "Missing unit of measure"))
  /\ (r !! "uom" = None ->
      uom_name v
      = match r !! "unit" with
        | Some (Some cell) => strip cell
        | _ => ""
        end).
Proof.
  intros Hread. destruct (read_row_uom r v Hread) as (raw & Hget & Hname).
  unfold row_get in Hget. split.
  - intros cell Hcell. rewrite Hcell in Hget. simpl in Hget.
    injection Hget as <-. split; [done|].
    intros Hnm Hblank. unfold failure. rewrite Hread.
    destruct (bool_str (name v)) eqn:Hb;
      [|by destruct (name v)].
    simpl. by rewrite Hname, Hblank.
  - intros Hnone. rewrite Hnone in Hget. simpl in Hget.
    destruct (r !! "unit") as [[cell|]|]; simpl in Hget.
    + by injection Hget as <-.
    + done.
    + by injection Hget as <-.
Qed.

(** A row of a file with both columns: the cell of [uom] is blank, the
    cell of [unit] says "kg". *)
Lemma uom_column_hides_unit_witness :
  failure Sample.db
    {[ "name" := Some "Pepper"; "price" := Some "3"; "uom" := Some " ";
       "unit" := Some "kg" ]}
  = Some "Missing unit of measure".
Proof.
  set (r := {[ "name" := Some "Pepper"; "price" := Some "3";
               "uom" := Some " "; "unit" := Some "kg" ]} : row).
  destruct (uom_column_hides_unit Sample.db r
              {| code := ""; name := "Pepper"; category_name := "";
                 price_str := "3"; uom_name := ""; supplier_name := "";
                 date_str := "" |}) as [Huom _]; [reflexivity|].
  destruct (Huom " ") as [_ Hfail]; [reflexivity|].
  apply Hfail; [discriminate|reflexivity].
Defined.



End RowFacts.

(** * The counts of the categories and the form of a line *)

Module ModelMethodFacts.
Import Py Orm OrmFacts CostEngine IngredientImport ModelMethods MoreViews.

Lemma search_count_split {A : Type} (d d1 d2 : A -> bool) (tbl : list A) :
  (forall x, d x = d1 x || d2 x) ->
  (forall x, d1 x && d2 x = false) ->
  search_count d tbl = search_count d1 tbl + search_count d2 tbl.
Proof.
  intros Hor Hand. unfold search_count.
  induction tbl as [|a tbl IH]; simpl; [done|].
  rewrite Hor. specialize (Hand a).
  destruct (d1 a), (d2 a); simpl in *; try discriminate; lia.
Qed.

Lemma search_count_none {A : Type} (d : A -> bool) (tbl : list A) :
  (forall x, d x = false) -> search_count d tbl = 0.
Proof.
  intros Hd. unfold search_count.
  induction tbl as [|a tbl IH]; simpl; [done|]. by rewrite Hd.
Qed.

Lemma search_count_le {A : Type} (d : A -> bool) (tbl : list A) :
  0 <= search_count d tbl <= Z.of_nat (length tbl).
Proof.
  unfold search_count. pose proof (filter_length_le d tbl). lia.
Qed.

(** X11. The counts of categories with distinct ids add up to the number of
    active ingredients filed under one of them: no ingredient is counted
    twice or under a category it is not in, and an archived ingredient
    or one without category is counted nowhere. *)
Theorem category_counts_partition (db : database)
    (self : list IngredientCategory.t) :
  NoDup (map IngredientCategory.id self) ->
  fold_right Z.add 0 (map snd (_compute_ingredient_count db self))
  = search_count (in_categories (map IngredientCategory.id self))
      (recipe_ingredient db)
  /\ fold_right Z.add 0 (map snd (_compute_ingredient_count db self))
     <= Z.of_nat (length (recipe_ingredient db)).
Proof.
  intros Hnodup.
  assert (Hsum : fold_right Z.add 0
                   (map snd (_compute_ingredient_count db self))
                 = search_count
                     (in_categories (map IngredientCategory.id self))
                     (recipe_ingredient db)).
  { induction self as [|c self IH]; simpl.
    - symmetry. apply search_count_none. intros i. unfold in_categories.
      destruct (Ingredient.active i); [|done]. simpl.
      by destruct (Ingredient.category_id i).
    - simpl in Hnodup. apply NoDup_cons in Hnodup as [Hfresh Hnodup].
      rewrite (IH Hnodup). symmetry. apply search_count_split.
      + intros i. unfold in_categories.
        destruct (Ingredient.active i); [|done]. simpl.
        destruct (Ingredient.category_id i) as [k|]; [|done].
        apply eq_true_iff_eq.
        rewrite orb_true_iff, !bool_decide_eq_true, elem_of_cons.
        split; intros [?|?]; try (by right); left; congruence.
      + intros i. unfold in_categories.
        destruct (Ingredient.active i); [|done]. simpl.
        destruct (Ingredient.category_id i) as [k|]; [|by rewrite andb_false_r].
        apply andb_false_iff.
        destruct (decide (k = IngredientCategory.id c)) as [->|Hne].
        * right. by apply bool_decide_eq_false.
        * left. apply bool_decide_eq_false. congruence. }
  split; [done|]. rewrite Hsum. apply search_count_le.
Qed.

(** Two categories created by an import of three rows; two of the rows
    name the first one. *)
Lemma category_counts_partition_witness :
  let db1 :=
    db (import_rows Sample.today
          [ {[ "name" := Some "Butter"; "price" := Some "3";
               "uom" := Some "kg"; "category" := Some "Dairy" ]};
            {[ "name" := Some "Rye"; "price" := Some "1";
               "uom" := Some "kg"; "category" := Some "Dry" ]};
            {[ "name" := Some "Milk"; "price" := Some "1";
               "uom" := Some "l"; "category" := Some "dairy" ]};
            {[ "name" := Some "Cream"; "price" := Some "2";
               "uom" := Some "kg"; "category" := Some "DAIRY" ]} ]
          (initial Sample.db)) in
  _compute_ingredient_count db1 (recipe_ingredient_category db1)
  = [(1, 2); (2, 1)]
  /\ fold_right Z.add 0
       (map snd
          (_compute_ingredient_count db1 (recipe_ingredient_category db1)))
     <= Z.of_nat (length (recipe_ingredient db1)).
Proof.
  intros db1. split; [by vm_compute|].
  apply (category_counts_partition db1 (recipe_ingredient_category db1)).
  vm_compute. apply NoDup_cons_2; [|apply NoDup_singleton].
  by intros ?%list_elem_of_singleton.
Defined.

(** X12. Choosing a sub-recipe on the form makes it the one that is costed:
    the ingredient, which would take precedence, is cleared, the unit
    becomes the unit "Units" where it is known, and the line costs the
    quantity times the total of the sub-recipe. *)
Theorem onchange_sub_recipe_takes_effect
    (_compute_quantity : Uom.t -> float -> Uom.t -> option float)
    (db : database) (self : RecipeLine.t) (sub : Recipe.t) :
  many2one (recipe_recipe db) (RecipeLine.sub_recipe_id self) = Some sub ->
  let line := _onchange_sub_recipe_id db self in
  RecipeLine.ingredient_id line = None
  /\ RecipeLine.sub_recipe_id line = RecipeLine.sub_recipe_id self
  /\ RecipeLine.uom_id line
     = match env_ref db "uom.product_uom_unit" with
       | Some unit_uom => Some (Uom.id unit_uom)
       | None => RecipeLine.uom_id self
       end
  /\ line_cost _compute_quantity db line
     = if bool_float (RecipeLine.quantity self)
       then (RecipeLine.quantity self * Recipe.total_cost sub)%float
       else 0%float.
Proof.
  intros Hsub. unfold _onchange_sub_recipe_id. rewrite Hsub. simpl.
  repeat (split; [done|]).
  unfold line_cost. simpl. rewrite Hsub.
  by destruct (bool_float (RecipeLine.quantity self)).
Qed.

(** The line that names both an ingredient and a sub-recipe costs the
    ingredient; once the sub-recipe is chosen again on the form it costs
    the sub-recipe. *)
Lemma onchange_sub_recipe_takes_effect_witness :
  line_cost Sample.convert Sample.db Sample.both_line = 4.5%float
  /\ line_cost Sample.convert Sample.db
       (_onchange_sub_recipe_id Sample.db Sample.both_line)
     = (RecipeLine.quantity Sample.both_line
        * Recipe.total_cost Sample.sauce)%float.
Proof.
  split; [reflexivity|].
  destruct (onchange_sub_recipe_takes_effect Sample.convert Sample.db
              Sample.both_line Sample.sauce) as (_ & _ & _ & Hcost);
    [reflexivity|].
  rewrite Hcost. reflexivity.
Defined.

(** X13. Choosing an ingredient on the form clears the sub-recipe and takes
    the unit of the ingredient, so that the quantity is converted from
    that unit to itself: the line costs what the host's conversion
    returns times the price, or the quantity times the price where the
    unit is unknown or the conversion fails. *)
Theorem onchange_ingredient_takes_its_unit
    (_compute_quantity : Uom.t -> float -> Uom.t -> option float)
    (db : database) (self : RecipeLine.t) (ingredient : Ingredient.t) :
  many2one (recipe_ingredient db) (RecipeLine.ingredient_id self)
  = Some ingredient ->
  let line := _onchange_ingredient_id db self in
  let quantity := RecipeLine.quantity self in
  RecipeLine.sub_recipe_id line = None
  /\ RecipeLine.ingredient_id line = RecipeLine.ingredient_id self
  /\ RecipeLine.uom_id line = Ingredient.uom_id ingredient
  /\ line_cost _compute_quantity db line
     = if bool_float quantity then
         match many2one (uom_uom db) (Ingredient.uom_id ingredient) with
         | Some uom =>
             match _compute_quantity uom quantity uom with
             | Some qty => (qty * Ingredient.price ingredient)%float
             | None => (quantity * Ingredient.price ingredient)%float
             end
         | None => (quantity * Ingredient.price ingredient)%float
         end
       else 0%float.
Proof.
  intros Hing. unfold _onchange_ingredient_id. rewrite Hing. simpl.
  repeat (split; [done|]).
  unfold line_cost. simpl. rewrite Hing.
  destruct (bool_float (RecipeLine.quantity self)); [|done].
  by destruct (many2one (uom_uom db) (Ingredient.uom_id ingredient)).
Qed.

(** The line of flour entered in grams: with the unit of the flour (kg)
    the same quantity costs a thousand times as much. *)
Lemma onchange_ingredient_takes_its_unit_witness :
  line_cost Sample.convert Sample.db Sample.flour_line = 0.75%float
  /\ RecipeLine.uom_id (_onchange_ingredient_id Sample.db Sample.flour_line)
     = Some 12
  /\ line_cost Sample.convert Sample.db
       (_onchange_ingredient_id Sample.db Sample.flour_line)
     = 750%float.
Proof.
  split; [reflexivity|].
  destruct (onchange_ingredient_takes_its_unit Sample.convert Sample.db
              Sample.flour_line Sample.flour) as (_ & _ & Huom & Hcost);
    [reflexivity|].
  rewrite Huom, Hcost. split; reflexivity.
Defined.

End ModelMethodFacts.

(** * Recomputing the costs *)

Module RecomputeFacts.
Import Py Orm OrmFacts CostEngine CostViews LineCostFacts RecipeCostFacts.
Import RecomputeViews.

Lemma recipe_costs_lines labor_rate energy_rate db db' r :
  recipe_recipe_line db' = recipe_recipe_line db ->
  recipe_costs labor_rate energy_rate db' r
  = recipe_costs labor_rate energy_rate db r.
Proof. intros Hlines. unfold recipe_costs, mapped_cost. by rewrite Hlines. Qed.

(** What the loop body returns, it returns again. *)
Lemma recipe_costs_settles labor_rate energy_rate db r r' :
  recipe_costs labor_rate energy_rate db r = Ok r' ->
  recipe_costs labor_rate energy_rate db r' = Ok r'.
Proof.
  unfold recipe_costs, truediv.
  destruct (Recipe.portions r =? 0) eqn:Hp; simpl; intros [= <-]; simpl;
    by rewrite Hp.
Qed.

Lemma recipe_costs_id labor_rate energy_rate db r r' :
  recipe_costs labor_rate energy_rate db r = Ok r' ->
  Recipe.id r' = Recipe.id r.
Proof.
  intros Hcost.
  destruct (recipe_costs_costed labor_rate energy_rate db r)
    as (r2 & Hr2 & (Hid & _) & _).
  congruence.
Qed.

Lemma browse_None {A : Type} `{Model A} (tbl : list A) (i : Z) (r : A) :
  browse tbl i = None -> In r tbl -> id_of r <> i.
Proof.
  intros Hnone Hin. pose proof (find_none _ _ Hnone r Hin) as Hr.
  simpl in Hr. lia.
Qed.

Lemma browse_found {A : Type} `{Model A} (tbl : list A) (i : Z) (r : A) :
  browse tbl i = Some r -> In r tbl.
Proof. intros Hfind. by apply find_some in Hfind as [Hin _]. Qed.

Lemma settled_in_weaken labor_rate energy_rate db (ids ids' : Z -> Prop) :
  (forall x, ids' x -> ids x) ->
  settled_in labor_rate energy_rate db ids ->
  settled_in labor_rate energy_rate db ids'.
Proof. intros Himp Hs r Hr Hid. apply Hs; [done|by apply Himp]. Qed.

(** Writing the costed recipe settles its id and unsettles no other. *)
Lemma write_settles labor_rate energy_rate db (ids : Z -> Prop) j rj rj' :
  browse (recipe_recipe db) j = Some rj ->
  recipe_costs labor_rate energy_rate db rj = Ok rj' ->
  settled_in labor_rate energy_rate db ids ->
  settled_in labor_rate energy_rate
    (set_recipe_recipe (write (recipe_recipe db) j (fun _ => rj')) db)
    (fun x => ids x \/ x = j).
Proof.
  intros Hj Hcost Hs.
  assert (Hidj : Recipe.id rj' = j).
  { rewrite (recipe_costs_id _ _ _ _ _ Hcost). exact (browse_id _ _ _ Hj). }
  set (db1 := set_recipe_recipe _ db).
  assert (Hlines : recipe_recipe_line db1 = recipe_recipe_line db) by done.
  assert (Hfrom : forall r, In r (recipe_recipe db1) ->
            r = rj' \/ (In r (recipe_recipe db) /\ Recipe.id r <> j)).
  { intros r Hr. unfold db1 in Hr. simpl in Hr. unfold write in Hr.
    apply in_map_iff in Hr as (r0 & <- & Hr0).
    destruct (Z.eqb_spec (id_of r0) j) as [Heq|Hne]; [by left|].
    right. by split. }
  intros r Hr Hid. destruct (Hfrom r Hr) as [->|[Hin Hne]].
  - split.
    + unfold settled. rewrite (recipe_costs_lines _ _ db db1) by done.
      by apply (recipe_costs_settles _ _ db rj).
    + intros r2 Hr2 Hid2. destruct (Hfrom r2 Hr2) as [->|[_ Hne]]; [done|].
      congruence.
  - destruct Hid as [Hid|Hid]; [|done].
    destruct (Hs r Hin Hid) as [Hset Huniq]. split.
    + unfold settled. by rewrite (recipe_costs_lines _ _ db db1).
    + intros r2 Hr2 Hid2. destruct (Hfrom r2 Hr2) as [->|[Hin2 _]].
      * congruence.
      * by apply Huniq.
Qed.

(** The loop never raises and settles the recipes of the recordset. *)
Lemma compute_costs_loop_settles labor_rate energy_rate self :
  forall db (ids : Z -> Prop),
  settled_in labor_rate energy_rate db ids ->
  exists db',
    compute_costs_loop labor_rate energy_rate db self = Ok db'
    /\ ir_config_parameter db' = ir_config_parameter db
    /\ settled_in labor_rate energy_rate db' (fun x => ids x \/ In x self).
Proof.
  induction self as [|j self IH]; intros db ids Hs.
  - exists db. split; [done|]. split; [done|].
    eapply settled_in_weaken; [|exact Hs]. by intros x [?|[]].
  - rewrite compute_costs_loop_cons.
    destruct (browse (recipe_recipe db) j) as [rj|] eqn:Hj.
    + destruct (recipe_costs_costed labor_rate energy_rate db rj)
        as (rj' & Hcost & _). rewrite Hcost. simpl.
      pose proof (write_settles _ _ db ids j rj rj' Hj Hcost Hs) as Hs1.
      destruct (IH _ _ Hs1) as (db' & -> & Hconf & Hs').
      exists db'. split; [done|]. split; [done|].
      eapply settled_in_weaken; [|exact Hs']. simpl.
      intros x [?|[->|?]]; tauto.
    + assert (Hs1 : settled_in labor_rate energy_rate db
                      (fun x => ids x \/ x = j)).
      { intros r Hr [Hid|Hid]; [by apply Hs|].
        by destruct (browse_None _ _ r Hj Hr). }
      destruct (IH _ _ Hs1) as (db' & -> & Hconf & Hs').
      exists db'. split; [done|]. split; [done|].
      eapply settled_in_weaken; [|exact Hs']. simpl.
      intros x [?|[->|?]]; tauto.
Qed.

Lemma set_recipe_recipe_same db : set_recipe_recipe (recipe_recipe db) db = db.
Proof. by destruct db. Qed.

(** On settled recipes the loop changes nothing. *)
Lemma compute_costs_loop_settled labor_rate energy_rate self :
  forall db (ids : Z -> Prop),
  settled_in labor_rate energy_rate db ids ->
  (forall x, In x self -> ids x) ->
  compute_costs_loop labor_rate energy_rate db self = Ok db.
Proof.
  induction self as [|j self IH]; intros db ids Hs Hall; [done|].
  rewrite compute_costs_loop_cons.
  assert (Hrest : compute_costs_loop labor_rate energy_rate db self = Ok db).
  { apply (IH db ids Hs). intros x Hx. apply Hall. by right. }
  destruct (browse (recipe_recipe db) j) as [rj|] eqn:Hj; [|done].
  pose proof (browse_found _ _ _ Hj) as Hin.
  pose proof (browse_id _ _ _ Hj) as Hid.
  destruct (Hs rj Hin) as [Hset Huniq].
  { change (Recipe.id rj) with (id_of rj). rewrite Hid. apply Hall. by left. }
  unfold settled in Hset. rewrite Hset. simpl.
  assert (Hwrite : write (recipe_recipe db) j (fun _ => rj)
                   = recipe_recipe db).
  { unfold write. rewrite <- (map_id (recipe_recipe db)) at 2.
    apply map_ext_in. intros r Hr.
    destruct (Z.eqb_spec (id_of r) j) as [Heq|]; [|done].
    symmetry. apply Huniq; [done|].
    change (Recipe.id r) with (id_of r). change (Recipe.id rj) with (id_of rj).
    congruence. }
  by rewrite Hwrite, set_recipe_recipe_same.
Qed.

Lemma _compute_costs_again db self db1 :
  _compute_costs db self = Ok db1 -> _compute_costs db1 self = Ok db1.
Proof.
  unfold _compute_costs.
  assert (Hparam : forall db' key dflt,
            ir_config_parameter db' = ir_config_parameter db ->
            get_param db' key dflt = get_param db key dflt).
  { intros db' key dflt Hconf. unfold get_param. by rewrite Hconf. }
  destruct (to_float (get_param db "chefrulo_recipe.labor_rate" "0"))
    as [labor_rate|e] eqn:Hlabor; [|done].
  destruct (to_float (get_param db "chefrulo_recipe.energy_rate" "0"))
    as [energy_rate|e] eqn:Henergy; [|done].
  simpl. intros Hloop.
  destruct (compute_costs_loop_settles labor_rate energy_rate self db
              (fun _ => False)) as (db' & Hloop' & Hconf & Hs).
  { by intros r _ []. }
  assert (db' = db1) by congruence. subst db'.
  rewrite !(Hparam db1) by done. rewrite Hlabor, Henergy. simpl.
  apply (compute_costs_loop_settled _ _ self db1 _ Hs). tauto.
Qed.

(** X14. Recomputing the costs of recipes that were just computed changes
    nothing: a second run of [_compute_costs], or of the button
    [action_recompute_costs], on the same recordset returns the database
    of the first. *)
Theorem recompute_is_idempotent (db : database) (self : list Z)
    (db1 : database) :
  action_recompute_costs db self = Ok (db1, true) ->
  _compute_costs db1 self = Ok db1
  /\ action_recompute_costs db1 self = Ok (db1, true).
Proof.
  unfold action_recompute_costs. intros Hfirst.
  destruct (_compute_costs db self) as [db'|e] eqn:Hcosts; [|done].
  simpl in Hfirst. injection Hfirst as ->.
  by rewrite (_compute_costs_again db self db1 Hcosts).
Qed.

(** The two sample recipes, once their lines are costed. *)
Lemma recompute_is_idempotent_witness :
  exists db1,
    action_recompute_costs
      (_compute_cost Sample.convert Sample.db [1; 2; 3]) [1; 2; 1]
    = Ok (db1, true)
    /\ _compute_costs db1 [1; 2; 1] = Ok db1
    /\ action_recompute_costs db1 [1; 2; 1] = Ok (db1, true).
Proof.
  eexists. split; [vm_compute; reflexivity|].
  apply (recompute_is_idempotent
           (_compute_cost Sample.convert Sample.db [1; 2; 3])).
  vm_compute. reflexivity.
Defined.

(** ** The lines, then the recipes *)

Section Host.
Variable _compute_quantity : Uom.t -> float -> Uom.t -> option float.

Lemma _compute_cost_step db j :
  let db1 :=
    match browse (recipe_recipe_line db) j with
    | Some line =>
        set_recipe_recipe_line
          (write (recipe_recipe_line db) j
             (RecipeLine.set_cost (line_cost _compute_quantity db line)))
          db
    | None => db
    end in
  same_inputs db db1
  /\ ir_config_parameter db1 = ir_config_parameter db
  /\ ir_model_data db1 = ir_model_data db
  /\ res_partner db1 = res_partner db
  /\ recipe_ingredient_category db1 = recipe_ingredient_category db
  /\ map entries (recipe_recipe_line db1)
     = map entries (recipe_recipe_line db)
  /\ forall i, i <> j ->
       browse (recipe_recipe_line db1) i = browse (recipe_recipe_line db) i.
Proof.
  simpl. destruct (browse (recipe_recipe_line db) j) as [line|]; [|done].
  simpl. repeat (split; [done|]). split.
  - unfold write. rewrite map_map. apply map_ext. intros l.
    by destruct (id_of l =? j).
  - intros i Hne. by apply browse_write_other.
Qed.

(** [_compute_cost] assigns nothing but the cost of the lines of the
    recordset. *)
Lemma _compute_cost_frame self : forall db,
  let db' := _compute_cost _compute_quantity db self in
  same_inputs db db'
  /\ ir_config_parameter db' = ir_config_parameter db
  /\ ir_model_data db' = ir_model_data db
  /\ res_partner db' = res_partner db
  /\ recipe_ingredient_category db' = recipe_ingredient_category db
  /\ map entries (recipe_recipe_line db')
     = map entries (recipe_recipe_line db)
  /\ forall i, ~ In i self ->
       browse (recipe_recipe_line db') i = browse (recipe_recipe_line db) i.
Proof.
  induction self as [|j self IH]; intros db; [done|].
  rewrite _compute_cost_cons.
  destruct (_compute_cost_step db j)
    as ((H1 & H2 & H3) & H4 & H5 & H6 & H7 & H8 & H9).
  match goal with
  | |- context [_compute_cost _ ?d self] =>
      destruct (IH d) as ((I1 & I2 & I3) & I4 & I5 & I6 & I7 & I8 & I9)
  end.
  simpl. split; [repeat split; congruence|].
  repeat (split; [congruence|]).
  intros i Hni. rewrite I9 by (intros Hi; apply Hni; by right).
  apply H9. intros ->. apply Hni. by left.
Qed.



End Host.

(** X15. [_compute_cost] assigns the cost of the lines of its recordset and
    nothing else: the other tables and the configuration are as before,
    the table of lines holds the same lines in the same order with every
    field but [cost] as before, and the lines outside the recordset keep
    their cost too. *)
Theorem line_costs_touch_only_costs
    (_compute_quantity : Uom.t -> float -> Uom.t -> option float)
    (db : database) (self : list Z) :
  let db' := _compute_cost _compute_quantity db self in
  (recipe_ingredient db' = recipe_ingredient db
   /\ uom_uom db' = uom_uom db
   /\ recipe_recipe db' = recipe_recipe db)
  /\ ir_config_parameter db' = ir_config_parameter db
  /\ ir_model_data db' = ir_model_data db
  /\ res_partner db' = res_partner db
  /\ recipe_ingredient_category db' = recipe_ingredient_category db
  /\ map entries (recipe_recipe_line db')
     = map entries (recipe_recipe_line db)
  /\ forall i, ~ In i self ->
       browse (recipe_recipe_line db') i = browse (recipe_recipe_line db) i.
Proof. exact (_compute_cost_frame _compute_quantity self db). Qed.



End RecomputeFacts.
